(** * Auto-Feedback Generator: the validator, the feedback engine and the route

    A shallow embedding of [src/utils/validator.js],
    [src/services/feedbackGenerator.js] and the handler of
    [POST /generate-feedback], with the properties of the specification
    stated over it.

    JavaScript data is modelled as follows.
    - A string is the list of its UTF-16 code units.
    - A number is NaN, an infinity or a finite value.  Finite doubles are
      rationals and the program only compares them, which IEEE 754 does
      exactly, so a finite number is carried as a rational; the two zeros
      are identified (they are both falsy and compare equal).
    - A value is [undefined] or JSON data: the request body is produced by
      [express.json()].  An object value is the list of its own enumerable
      data properties in [Object.keys] order, as [JSON.parse] builds it:
      its prototype is [Object.prototype], and a key [__proto__] or
      [toString] is an own data property like any other.
    - The conversions [ToString] and [ToNumber] fail with a TypeError on an
      object that owns a member named [toString]: a JSON member is not
      callable, and [Object.prototype.valueOf] returns the object itself.
    - An object built by the program lives in a store, with its prototype:
      an assignment to its key [__proto__] reaches the setter inherited
      from [Object.prototype].
    - The two conversions between strings and numbers are the language's
      own algorithms; they are taken as the operations of a class. *)

From Stdlib Require Import QArith.
From Stdlib Require Import NArith Ascii String.
From stdpp Require Import base option list gmap strings.

(** ** Strings *)

Definition char := N.
Abbreviation jstr := (list char).

(** the code units of an ASCII literal of the source *)
Definition lit (s : string) : jstr :=
  (λ a, N_of_ascii a) <$> list_ascii_of_string s.

Definition jstr_eqb (a b : jstr) : bool := bool_decide (a = b).

Arguments lit : simpl never.

(** ** Numbers *)

Inductive number :=
| NaN
| NegInf
| Fin (q : Q)
| PosInf.

Definition num_of_nat (n : nat) : number := Fin (inject_Z (Z.of_nat n)).

(** [Number::lessThan]: [None] is the answer "undefined" given when an
    operand is NaN. *)
Definition lessThan (x y : number) : option bool :=
  match x, y with
  | NaN, _ | _, NaN => None
  | PosInf, _ => Some false
  | _, PosInf => Some true
  | _, NegInf => Some false
  | NegInf, _ => Some true
  | Fin a, Fin b => Some (negb (Qle_bool b a))
  end.

(** [x < y], [x > y], [x >= y] on numbers *)
Definition num_lt (x y : number) : bool :=
  match lessThan x y with Some true => true | _ => false end.
Definition num_gt (x y : number) : bool :=
  match lessThan y x with Some true => true | _ => false end.
Definition num_ge (x y : number) : bool :=
  match lessThan x y with Some false => true | _ => false end.

Definition isNaN (x : number) : bool :=
  match x with NaN => true | _ => false end.

(** ** Values *)

#[warnings="-register-all"]
Inductive value :=
| VUndefined
| VNull
| VBool (b : bool)
| VNum (n : number)
| VStr (s : jstr)
| VArr (elems : list value)
| VObj (props : list (jstr * value)).

Abbreviation object := (list (jstr * value)).

(** [o[k]] on own properties *)
Fixpoint get (o : object) (k : jstr) : value :=
  match o with
  | [] => VUndefined
  | (k', v) :: o' => if jstr_eqb k' k then v else get o' k
  end.

(** [Object.keys(o)] *)
Definition keys (o : object) : list jstr := o.*1.

(** [ToBoolean] *)
Definition truthy (v : value) : bool :=
  match v with
  | VUndefined | VNull => false
  | VBool b => b
  | VNum NaN => false
  | VNum (Fin q) => negb (Qeq_bool q 0)
  | VNum _ => true
  | VStr s => negb (bool_decide (s = []))
  | VArr _ | VObj _ => true
  end.

Definition nullish (v : value) : bool :=
  match v with VUndefined | VNull => true | _ => false end.

(** [typeof v === 'string'], [typeof v === 'object'], [Array.isArray(v)] *)
Definition is_string (v : value) : bool :=
  match v with VStr _ => true | _ => false end.
Definition is_array (v : value) : bool :=
  match v with VArr _ => true | _ => false end.

(** [v === 0] *)
Definition is_zero (v : value) : bool :=
  match v with VNum (Fin q) => Qeq_bool q 0 | _ => false end.

Fixpoint join_with (sep : jstr) (l : list jstr) : jstr :=
  match l with
  | [] => []
  | [x] => x
  | x :: l' => x ++ sep ++ join_with sep l'
  end.

(** ** [String.prototype.replace] with a string pattern *)

(** the text before and after the first occurrence of [pat] in [s] *)
Fixpoint split_first (pat s : jstr) : option (jstr * jstr) :=
  if bool_decide (take (length pat) s = pat) then Some ([], drop (length pat) s)
  else match s with
       | [] => None
       | c :: s' => (λ '(a, b), (c :: a, b)) <$> split_first pat s'
       end.

Definition dollar : char := 36%N.
Definition ampersand : char := 38%N.
Definition backtick : char := 96%N.
Definition quote : char := 39%N.

(** [GetSubstitution] for a match without capture groups: [$$], [$&],
    [$`] and [$'] are expanded, any other [$] stands for itself. *)
Fixpoint GetSubstitution (matched preceding following r : jstr) : jstr :=
  match r with
  | [] => []
  | c :: r' =>
      if bool_decide (c = dollar) then
        match r' with
        | [] => [c]
        | d :: r'' =>
            if bool_decide (d = dollar) then
              dollar :: GetSubstitution matched preceding following r''
            else if bool_decide (d = ampersand) then
              matched ++ GetSubstitution matched preceding following r''
            else if bool_decide (d = backtick) then
              preceding ++ GetSubstitution matched preceding following r''
            else if bool_decide (d = quote) then
              following ++ GetSubstitution matched preceding following r''
            else c :: GetSubstitution matched preceding following r'
        end
      else c :: GetSubstitution matched preceding following r'
  end.

(** [s.replace(pat, r)]: the first occurrence only *)
Definition replace (s pat r : jstr) : jstr :=
  match split_first pat s with
  | None => s
  | Some (a, b) => a ++ GetSubstitution pat a b r ++ b
  end.

(** ** Calls that can fail *)

Inductive error := TypeError.

Inductive outcome (A : Type) :=
| Returns (a : A)
| Throws (e : error).
Arguments Returns {A} a.
Arguments Throws {A} e.

#[export] Instance outcome_ret : MRet outcome := λ A a, Returns a.
#[export] Instance outcome_bind : MBind outcome := λ A B f m,
  match m with Returns a => f a | Throws e => Throws e end.
#[export] Instance outcome_fmap : FMap outcome := λ A B f m,
  match m with Returns a => Returns (f a) | Throws e => Throws e end.

(** The language's conversions between strings and numbers:
    [StringToNumber] is the parse behind [Number(s)], [NumberToString] the
    rendering behind [String(n)]. *)
Class Conversions := {
  StringToNumber : jstr → number;
  NumberToString : number → jstr
}.

Section Engine.
Context `{!Conversions}.

(** [o] has an own property named [k] *)
Definition owns (o : object) (k : jstr) : bool := bool_decide (k ∈ keys o).

(** [ToString].  An array renders as its elements joined by a comma, with
    [undefined] and [null] elements rendered empty.  An object renders as
    "[object Object]" through [Object.prototype.toString], unless it owns a
    member [toString]: that member, read from JSON, is not callable, and
    [valueOf] does not give a primitive, so the conversion throws. *)
Fixpoint ToString (v : value) : outcome jstr :=
  match v with
  | VUndefined => Returns (lit "undefined")
  | VNull => Returns (lit "null")
  | VBool true => Returns (lit "true")
  | VBool false => Returns (lit "false")
  | VNum n => Returns (NumberToString n)
  | VStr s => Returns s
  | VArr l =>
      match
        (fix texts (l : list value) : outcome (list jstr) :=
           match l with
           | [] => Returns []
           | x :: l' =>
               match
                 match x with
                 | VUndefined | VNull => Returns []
                 | _ => ToString x
                 end
               with
               | Throws e => Throws e
               | Returns t =>
                   match texts l' with
                   | Throws e => Throws e
                   | Returns ts => Returns (t :: ts)
                   end
               end
           end) l
      with
      | Throws e => Throws e
      | Returns ts => Returns (join_with (lit ",") ts)
      end
  | VObj o =>
      if owns o (lit "toString") then Throws TypeError
      else Returns (lit "[object Object]")
  end.

(** the text of an array element in [join] *)
Definition elem_text (v : value) : outcome jstr :=
  if nullish v then Returns [] else ToString v.

Fixpoint texts (l : list value) : outcome (list jstr) :=
  match l with
  | [] => Returns []
  | x :: l' => t ← elem_text x; ts ← texts l'; Returns (t :: ts)
  end.

(** [Array.prototype.join] on the elements of an array *)
Definition join (sep : jstr) (l : list value) : outcome jstr :=
  ts ← texts l; Returns (join_with sep ts).

(** [ToNumber]; an array or object goes through its string form *)
Definition ToNumber (v : value) : outcome number :=
  match v with
  | VUndefined => Returns NaN
  | VNull => Returns (Fin 0)
  | VBool true => Returns (Fin 1)
  | VBool false => Returns (Fin 0)
  | VNum n => Returns n
  | VStr s => Returns (StringToNumber s)
  | VArr _ | VObj _ => s ← ToString v; Returns (StringToNumber s)
  end.

(** [v >= bound], [v > bound] and [v < bound] against a number literal *)
Definition ge (v : value) (bound : Q) : outcome bool :=
  n ← ToNumber v; Returns (num_ge n (Fin bound)).
Definition gt (v : value) (bound : Q) : outcome bool :=
  n ← ToNumber v; Returns (num_gt n (Fin bound)).

(** ** The feedback engine: classification and templates *)

Definition excellent : jstr := lit "excellent".
Definition good : jstr := lit "good".
Definition needsImprovement : jstr := lit "needsImprovement".

Definition feedbackTemplates : list (jstr * jstr) :=
  [ (excellent, lit "Outstanding work! {student} has demonstrated exceptional understanding of {topic}.");
    (good, lit "Good progress! {student} shows solid grasp of {topic} with room for improvement in {areas}.");
    (needsImprovement, lit "{student} needs additional support in {topic}. Consider focusing on {recommendations}.") ].

Definition assessPerformance (performance : value) : outcome jstr :=
  a ← ge performance 85;
  if a : bool then Returns excellent
  else
    b ← ge performance 70;
    if b : bool then Returns good else Returns needsImprovement.

(** [this.feedbackTemplates[level]]: [None] when the table has no such key *)
Fixpoint template_of (level : jstr) (t : list (jstr * jstr)) : option jstr :=
  match t with
  | [] => None
  | (k, s) :: t' => if jstr_eqb k level then Some s else template_of level t'
  end.

Definition getBaseTemplate (level : jstr) : jstr :=
  match template_of level feedbackTemplates with
  | Some s => if truthy (VStr s) then s
              else default [] (template_of needsImprovement feedbackTemplates)
  | None => default [] (template_of needsImprovement feedbackTemplates)
  end.

(** [v.length], read on a truthy [v] only *)
Definition prop_length (v : value) : value :=
  match v with
  | VArr l => VNum (num_of_nat (length l))
  | VStr s => VNum (num_of_nat (length s))
  | VObj o => get o (lit "length")
  | _ => VUndefined
  end.

(** [v.join(sep)]: arrays alone have the method *)
Definition call_join (v : value) (sep : jstr) : outcome jstr :=
  match v with
  | VArr l => join sep l
  | _ => Throws TypeError
  end.

(** [v.slice(0, 2)] *)
Definition call_slice (v : value) : outcome value :=
  match v with
  | VArr l => Returns (VArr (take 2 l))
  | VStr s => Returns (VStr (take 2 s))
  | _ => Throws TypeError
  end.

(** [v?.join(sep)] *)
Definition opt_join (v : value) (sep : jstr) : outcome value :=
  if nullish v then Returns VUndefined else VStr <$> call_join v sep.

(** [a || b] *)
Definition or_else (a b : value) : value := if truthy a then a else b.

(** ** The feedback engine: rendering *)

Definition personalizeFeedback (template : jstr) (data : object)
  : outcome jstr :=
  foldl (λ personalizedFeedback key,
           s ← personalizedFeedback;
           r ← ToString (get data key);
           Returns (replace s (lit "{" ++ key ++ lit "}") r))
        (Returns template) (keys data).

Definition generateRecommendations (weakAreas strengths : value) : outcome jstr :=
  if negb (truthy weakAreas) || is_zero (prop_length weakAreas)
  then Returns (lit "Continue building on current strengths")
  else
    first_two ← call_slice weakAreas;
    focus ← call_join first_two (lit " and ");
    st ← opt_join strengths (lit " and ");
    leverage ← ToString (or_else st (VStr (lit "identified areas")));
    Returns (lit "Focus on " ++ focus ++ lit " while leveraging strengths in "
             ++ leverage).

(** [v && v.length > 0] *)
Definition has_entries (v : value) : outcome bool :=
  if truthy v then gt (prop_length v) 0 else Returns false.

Definition generateDetailedRecommendations (studentData : object)
  : outcome (list jstr) :=
  let weakAreas := get studentData (lit "weakAreas") in
  let strengths := get studentData (lit "strengths") in
  let learningStyle := get studentData (lit "learningStyle") in
  let recommendations := [] in
  some ← has_entries weakAreas;
  recommendations ←
    (if some : bool
     then t ← call_join weakAreas (lit ", ");
          Returns (recommendations ++ [lit "Target improvement areas: " ++ t])
     else Returns recommendations);
  some ← has_entries strengths;
  recommendations ←
    (if some : bool
     then t ← call_join strengths (lit ", ");
          Returns (recommendations ++ [lit "Build upon strengths: " ++ t])
     else Returns recommendations);
  if truthy learningStyle
  then t ← ToString learningStyle;
       Returns (recommendations ++ [lit "Adapt teaching methods for "
                                    ++ t ++ lit " learning style"])
  else Returns recommendations.

Definition generateNextSteps (performanceLevel : jstr) (weakAreas : value)
  : outcome (list jstr) :=
  let steps := [] in
  if jstr_eqb performanceLevel excellent then
    Returns (steps ++ [lit "Explore advanced topics and challenges"]
                   ++ [lit "Consider peer tutoring opportunities"])
  else if jstr_eqb performanceLevel good then
    Returns (steps ++ [lit "Practice additional exercises in identified areas"]
                   ++ [lit "Seek clarification on challenging concepts"])
  else if jstr_eqb performanceLevel needsImprovement then
    let steps := steps ++ [lit "Schedule additional support sessions"]
                       ++ [lit "Review fundamental concepts"] in
    some ← has_entries weakAreas;
    if some : bool
    then first_two ← call_slice weakAreas;
         focus ← call_join first_two (lit " and ");
         Returns (steps ++ [lit "Focus specifically on: " ++ focus])
    else Returns steps
  else Returns steps.

Record FeedbackResult := {
  studentName : value;
  subject : value;
  performanceLevel : jstr;
  feedback : jstr;
  recommendations : list jstr;
  nextSteps : list jstr;
  timestamp : jstr
}.

(** the object of bindings handed to [personalizeFeedback] *)
Definition bindings (studentData : object) : outcome object :=
  let name := get studentData (lit "name") in
  let subject := get studentData (lit "subject") in
  let weakAreas := get studentData (lit "weakAreas") in
  let strengths := get studentData (lit "strengths") in
  areas ← opt_join weakAreas (lit ", ");
  recs ← generateRecommendations weakAreas strengths;
  Returns [ (lit "student", name);
            (lit "topic", subject);
            (lit "areas", or_else areas (VStr (lit "general concepts")));
            (lit "recommendations", VStr recs) ].

(** [now] is the reading of the clock, [new Date().toISOString()] *)
Definition generateFeedback (now : jstr) (studentData : object) (criteria : value)
  : outcome FeedbackResult :=
  let name := get studentData (lit "name") in
  let performance := get studentData (lit "performance") in
  let subject := get studentData (lit "subject") in
  let weakAreas := get studentData (lit "weakAreas") in
  performanceLevel ← assessPerformance performance;
  let feedback := getBaseTemplate performanceLevel in
  data ← bindings studentData;
  feedback ← personalizeFeedback feedback data;
  recommendations ← generateDetailedRecommendations studentData;
  nextSteps ← generateNextSteps performanceLevel weakAreas;
  Returns {| studentName := name;
             subject := subject;
             performanceLevel := performanceLevel;
             feedback := feedback;
             recommendations := recommendations;
             nextSteps := nextSteps;
             timestamp := now |}.

(** ** The validators *)

Record ValidationResult := {
  isValid : bool;
  errors : list jstr
}.

Definition is_undefined (v : value) : bool :=
  match v with VUndefined => true | _ => false end.

(** [isNaN(n) || n < lo || n > hi] for [n = Number(v)] *)
Definition out_of_range (v : value) (lo hi : Q) : outcome bool :=
  n ← ToNumber v;
  Returns (isNaN n || num_lt n (Fin lo) || num_gt n (Fin hi)).

Definition validateStudentData (studentData : object)
  : outcome ValidationResult :=
  let errors := [] in
  let required := [lit "name"; lit "performance"; lit "subject"] in
  let errors :=
    foldl (λ errors field,
             if negb (truthy (get studentData field))
             then errors ++ [field ++ lit " is required"]
             else errors)
          errors required in
  errors ←
    (if negb (is_undefined (get studentData (lit "performance"))) then
       bad ← out_of_range (get studentData (lit "performance")) 0 100;
       Returns (if bad : bool
                then errors ++ [lit "Performance must be a number between 0 and 100"]
                else errors)
     else Returns errors);
  let errors :=
    if truthy (get studentData (lit "name"))
       && negb (is_string (get studentData (lit "name")))
    then errors ++ [lit "Name must be a string"] else errors in
  let errors :=
    if truthy (get studentData (lit "subject"))
       && negb (is_string (get studentData (lit "subject")))
    then errors ++ [lit "Subject must be a string"] else errors in
  let errors :=
    if truthy (get studentData (lit "weakAreas"))
       && negb (is_array (get studentData (lit "weakAreas")))
    then errors ++ [lit "Weak areas must be an array"] else errors in
  let errors :=
    if truthy (get studentData (lit "strengths"))
       && negb (is_array (get studentData (lit "strengths")))
    then errors ++ [lit "Strengths must be an array"] else errors in
  Returns {| isValid := bool_decide (length errors = 0); errors := errors |}.

(** [typeof v === 'object'] *)
Definition typeof_object (v : value) : bool :=
  match v with VNull | VArr _ | VObj _ => true | _ => false end.

(** [v.k] for a member name that arrays and [Object.prototype] do not
    have: an own property of an object, [undefined] on anything else *)
Definition member (v : value) (k : jstr) : value :=
  match v with VObj o => get o k | _ => VUndefined end.

Definition validateCriteria (criteria : value) : outcome ValidationResult :=
  let errors := [] in
  if negb (truthy criteria) || negb (typeof_object criteria) then
    Returns {| isValid := false;
               errors := errors ++ [lit "Criteria must be an object"] |}
  else
    let errors :=
      if truthy (member criteria (lit "rubric"))
         && negb (typeof_object (member criteria (lit "rubric")))
      then errors ++ [lit "Rubric must be an object"] else errors in
    errors ←
      (if negb (is_undefined (member criteria (lit "weight"))) then
         bad ← out_of_range (member criteria (lit "weight")) 0 1;
         Returns (if bad : bool
                  then errors ++ [lit "Weight must be a number between 0 and 1"]
                  else errors)
       else Returns errors);
    Returns {| isValid := bool_decide (length errors = 0); errors := errors |}.

End Engine.

(** ** The sanitizer, over a store of objects *)

(** [WhiteSpace] and [LineTerminator] code points, as [trim] strips them *)
Definition is_space (c : char) : bool :=
  bool_decide (c ∈ [9; 10; 11; 12; 13; 32; 160; 5760; 8232; 8233; 8239; 8287;
                    12288; 65279]%N)
  || ((8192 <=? c)%N && (c <=? 8202)%N).

Fixpoint trim_start (s : jstr) : jstr :=
  match s with
  | [] => []
  | c :: s' => if is_space c then trim_start s' else s
  end.

(** [s.trim()] *)
Definition trim (s : jstr) : jstr :=
  reverse (trim_start (reverse (trim_start s))).

Definition lt_sign : char := 60%N.
Definition gt_sign : char := 62%N.

(** [s.replace(/[<>]/g, '')] *)
Fixpoint strip_angle (s : jstr) : jstr :=
  match s with
  | [] => []
  | c :: s' =>
      if bool_decide (c = lt_sign) || bool_decide (c = gt_sign)
      then strip_angle s' else c :: strip_angle s'
  end.

Definition loc := positive.

(** [None] stands for [Object.prototype]; [Some v] for the value [v], an
    object, an array or [null], that an assignment to [__proto__] has put
    in its place *)
Record stored := {
  prototype : option value;
  own : object
}.

(** the objects of the store; the fields of an object hold immutable data *)
Abbreviation heap := (gmap loc stored).

(** an object that [JSON.parse] or an object literal has built *)
Definition plain (o : object) : stored := {| prototype := None; own := o |}.

Definition proto_key : jstr := lit "__proto__".

(** an own data property is updated in place, a new one is added last *)
Fixpoint set_own (o : object) (k : jstr) (v : value) : object :=
  match o with
  | [] => [(k, v)]
  | (k', v') :: o' =>
      if jstr_eqb k' k then (k', v) :: o' else (k', v') :: set_own o' k v
  end.

(** the setter of [Object.prototype.__proto__]: an object, an array or
    [null] becomes the prototype, any other value is ignored *)
Definition set_prototype (s : stored) (v : value) : stored :=
  match v with
  | VObj _ | VArr _ | VNull => {| prototype := Some v; own := own s |}
  | _ => s
  end.

(** the assignment to [__proto__] reaches the inherited setter: the object
    does not own the key, and neither does an object put as its prototype
    (which would make it a plain data property); with the prototype
    [null] there is no setter to reach *)
Definition reaches_setter (s : stored) : bool :=
  negb (bool_decide (proto_key ∈ keys (own s)))
  && match prototype s with
     | None => true
     | Some (VObj p) => negb (bool_decide (proto_key ∈ keys p))
     | Some (VArr _) => true
     | Some _ => false
     end.

(** [o[k] = v] *)
Definition obj_set (s : stored) (k : jstr) (v : value) : stored :=
  if jstr_eqb k proto_key && reaches_setter s then set_prototype s v
  else {| prototype := prototype s; own := set_own (own s) k v |}.

(** [data[key]] for a key that [data] owns, as [Object.keys] lists them *)
Definition read (h : heap) (l : loc) (k : jstr) : value :=
  match h !! l with Some s => get (own s) k | None => VUndefined end.

Definition write (h : heap) (l : loc) (k : jstr) (v : value) : heap :=
  alter (λ s, obj_set s k v) l h.

(** the body of the loop: [sanitized[key]] receives [data[key]], trimmed
    and stripped when it is a string *)
Definition copy_field (data sanitized : loc) (h : heap) (key : jstr) : heap :=
  match read h data key with
  | VStr s => write h sanitized key (VStr (strip_angle (trim s)))
  | v => write h sanitized key v
  end.

Definition sanitizeInput (h : heap) (data : loc) : outcome (heap * loc) :=
  match h !! data with
  | None => Throws TypeError
  | Some s =>
      let sanitized := fresh (dom h) in
      let h := <[sanitized := plain []]> h in
      let h := foldl (copy_field data sanitized) h (keys (own s)) in
      Returns (h, sanitized)
  end.

(** the copy as the specification describes it: string fields trimmed and
    then freed of angle brackets, the other fields as they are *)
Definition sanitize_value (v : value) : value :=
  match v with
  | VStr s => VStr (strip_angle (trim s))
  | _ => v
  end.

Definition sanitized_copy (o : object) : object :=
  prod_map id sanitize_value <$> o.

(** what the reads [o.name], [o.performance], [o.subject], [o.weakAreas],
    [o.strengths], [o.learningStyle], [o.rubric] and [o.weight] see on an
    object of the store: its own fields, then those of an object put as its
    prototype.  (Neither [Object.prototype] nor [Array.prototype] has a
    member of these names.) *)
Definition fields (s : stored) : object :=
  own s ++ match prototype s with Some (VObj p) => p | _ => [] end.

(** ** The route *)

Section Route.
Context `{!Conversions}.

(** what the route sends: [res.status(400).json({error: 'Validation
    failed', details})], [res.json(feedback)] with the default status, or
    [res.status(500).json({error: 'Internal server error', ...})] *)
Inductive payload :=
| ValidationFailed (details : list jstr)
| Feedback (result : FeedbackResult)
| InternalError.

Record response := {
  status : nat;
  body : payload
}.

(** the [try] block, from the validation on, for a student object and a
    criteria object of the store *)
Definition attempt (now : jstr) (h : heap) (studentData criteria : loc)
    (sd cr : stored) : heap * outcome response :=
  match validateStudentData (fields sd) with
  | Throws e => (h, Throws e)
  | Returns studentValidation =>
      if negb (isValid studentValidation) then
        (h, Returns {| status := 400;
                       body := ValidationFailed (errors studentValidation) |})
      else
        match validateCriteria (VObj (fields cr)) with
        | Throws e => (h, Throws e)
        | Returns criteriaValidation =>
            if negb (isValid criteriaValidation) then
              (h, Returns {| status := 400;
                             body := ValidationFailed
                                       (errors criteriaValidation) |})
            else
              match sanitizeInput h studentData with
              | Throws e => (h, Throws e)
              | Returns (h, sanitizedStudentData) =>
                  match sanitizeInput h criteria with
                  | Throws e => (h, Throws e)
                  | Returns (h, sanitizedCriteria) =>
                      match h !! sanitizedStudentData, h !! sanitizedCriteria with
                      | Some sd', Some cr' =>
                          (h, feedback ← generateFeedback now (fields sd')
                                           (VObj (fields cr'));
                              Returns {| status := 200;
                                         body := Feedback feedback |})
                      | _, _ => (h, Throws TypeError)
                      end
                  end
              end
        end
  end.

(** The handler of [POST /generate-feedback], on a request body whose
    members [studentData] and [criteria] are each absent or an object of
    the store.  An absent [criteria] defaults to a new empty object; an
    absent [studentData] makes the validator fail on its first member
    access.  The [catch] turns every failure into the response 500; its
    log line is not modelled. *)
Definition post_generate_feedback (now : jstr) (h : heap)
    (studentData criteria : option loc) : heap * response :=
  let '(h, criteria) :=
    match criteria with
    | Some c => (h, c)
    | None => (<[fresh (dom h) := plain []]> h, fresh (dom h))
    end in
  let '(h, result) :=
    match studentData with
    | None => (h, Throws TypeError)
    | Some studentData =>
        match h !! studentData, h !! criteria with
        | Some sd, Some cr => attempt now h studentData criteria sd cr
        | _, _ => (h, Throws TypeError)
        end
    end in
  match result with
  | Returns r => (h, r)
  | Throws _ => (h, {| status := 500; body := InternalError |})
  end.

End Route.

(** ** Placeholder tokens and texts *)

Definition lbrace : char := 123%N.

(** [p] occurs in [s] *)
Definition occurs (p s : jstr) : Prop := ∃ a b, s = a ++ p ++ b.

(** [s] contains the token made of [key] between braces *)
Definition has_token (key s : jstr) : Prop :=
  ∃ a b, s = a ++ lit "{" ++ key ++ lit "}" ++ b.

(** the names of the slots of the templates *)
Definition placeholders : list jstr :=
  [lit "student"; lit "topic"; lit "areas"; lit "recommendations"].

(** a text that holds none of the four tokens and none of the patterns
    [$&], [$`] and [$'] that [replace] expands in a replacement *)
Definition inert (s : jstr) : Prop :=
  (∀ key, key ∈ placeholders → ¬ has_token key s)
  ∧ ¬ occurs (lit "$&") s
  ∧ ¬ occurs [dollar; backtick] s
  ∧ ¬ occurs [dollar; quote] s.

(** a replacement text with every pair [$$] read as one dollar sign, from
    left to right *)
Fixpoint unescape (r : jstr) : jstr :=
  match r with
  | [] => []
  | c :: r' =>
      match r' with
      | [] => [c]
      | d :: r'' =>
          if bool_decide (c = dollar) && bool_decide (d = dollar)
          then dollar :: unescape r''
          else c :: unescape r'
      end
  end.

(** the four tokens, and with them the three patterns *)
Definition tokens : list jstr :=
  [ lbrace :: lit "student}"; lbrace :: lit "topic}"; lbrace :: lit "areas}";
    lbrace :: lit "recommendations}" ].

Definition patterns : list jstr :=
  tokens ++ [ lit "$&"; [dollar; backtick]; [dollar; quote] ].

(** none of the texts of [P] occurs in [s] *)
Definition avoids (P : list jstr) (s : jstr) : Prop :=
  ∀ p, p ∈ P → ¬ occurs p s.

(** [y] is not empty, [p] does not occur in it, and its first and last
    characters are not characters of [p] *)
Definition static_ok (p y : jstr) : bool :=
  match y with [] => false | c :: _ => bool_decide (c ∉ p) end
  && match last y with Some c => bool_decide (c ∉ p) | None => false end
  && match split_first p y with None => true | Some _ => false end.

Definition quiet (P : list jstr) (y : jstr) : bool :=
  forallb (λ p, static_ok p y) P.

(** no text of [P] occurs in [y] *)
Definition silent (P : list jstr) (y : jstr) : bool :=
  forallb (λ p, match split_first p y with None => true | Some _ => false end)
          P.

(** ** The sequences of the data model *)

(** an optional sequence of text labels: absent, or an array of strings *)
Definition labels (v : value) (ws : list jstr) : Prop :=
  (nullish v = true ∧ ws = []) ∨ v = VArr (VStr <$> ws).

(** the first two entries of a sequence joined by " and ", for a sequence
    that starts with text labels *)
Inductive first_two_joined : list value → jstr → Prop :=
| first_one (a : jstr) : first_two_joined [VStr a] a
| first_pair (a b : jstr) (rest : list value) :
    first_two_joined (VStr a :: VStr b :: rest) (a ++ lit " and " ++ b).

(** the text that [l.join(sep) || fallback] evaluates to, on strings *)
Definition joined_or (sep fallback : jstr) (ws : list jstr) : jstr :=
  if bool_decide (join_with sep ws = []) then fallback else join_with sep ws.

(** a finite number between two bounds, the bounds included *)
Definition in_range (n : number) (lo hi : Q) : Prop :=
  ∃ q, n = Fin q ∧ (lo <= q)%Q ∧ (q <= hi)%Q.

(** ** Records used as examples *)

Definition field (k : string) (v : value) : jstr * value := (lit k, v).
Definition text (s : string) : value := VStr (lit s).

(** a well-formed record whose score is 0 *)
Definition zero_score : object :=
  [ field "name" (text "Ann");
    field "performance" (VNum (Fin 0));
    field "subject" (text "Algebra") ].

(** the three records of [tests/feedbackGenerator.test.js] *)
Definition john_doe : object :=
  [ field "name" (text "John Doe");
    field "performance" (VNum (Fin 90));
    field "subject" (text "Mathematics");
    field "weakAreas" (VArr []);
    field "strengths" (VArr [text "Problem solving"; text "Analytical thinking"]) ].

Definition jane_smith : object :=
  [ field "name" (text "Jane Smith");
    field "performance" (VNum (Fin 75));
    field "subject" (text "Science");
    field "weakAreas" (VArr [text "Lab procedures"]);
    field "strengths" (VArr [text "Theory understanding"]) ].

Definition bob_johnson : object :=
  [ field "name" (text "Bob Johnson");
    field "performance" (VNum (Fin 60));
    field "subject" (text "English");
    field "weakAreas" (VArr [text "Grammar"; text "Vocabulary"]);
    field "strengths" (VArr [text "Creative writing"]) ].

(** the criteria of the first test, with a rubric of its own *)
Definition rubric_criteria : value :=
  VObj [ field "rubric"
           (VObj [ field "excellence" (VNum (Fin 85));
                   field "good" (VNum (Fin 70));
                   field "improvement" (VNum (Fin 50)) ]) ].

(** a record whose name is the text of a placeholder *)
Definition braces_name : object :=
  [ field "name" (text "{topic}");
    field "performance" (VNum (Fin 90));
    field "subject" (text "Algebra") ].

(** a record whose name is the pattern [$'] *)
Definition quote_name : object :=
  [ field "name" (VStr [dollar; quote]);
    field "performance" (VNum (Fin 90));
    field "subject" (text "Algebra") ].

(** a record whose name holds a brace and a dollar sign, and no token *)
Definition odd_name : object :=
  [ field "name" (text "A{B $5");
    field "performance" (VNum (Fin 75));
    field "subject" (text "Sets {a, b}");
    field "weakAreas" (VArr [text "Unions"; text "Powers"; text "Pairs"]);
    field "strengths" (VArr [text "Proofs"]) ].

(** a record with one weak area and one strength, both the empty text *)
Definition empty_labels : object :=
  [ field "name" (text "Ann");
    field "performance" (VNum (Fin 75));
    field "subject" (text "Algebra");
    field "weakAreas" (VArr [VStr []]);
    field "strengths" (VArr [VStr []]) ].

(** a record without the required fields and with a text for weakAreas *)
Definition only_bad_areas : object :=
  [ field "weakAreas" (text "Grammar") ].

(** a record without the required fields and nothing wrong besides *)
Definition only_style : object :=
  [ field "learningStyle" (text "visual") ].

(** a record to sanitize *)
Definition bob_markup : object :=
  [ field "name" (text " <b>Bob</b> ");
    field "performance" (VNum (Fin 60));
    field "weakAreas" (VArr [text " <i>Grammar</i> "]) ].

(** a record that owns a string under the key [__proto__], as [JSON.parse]
    builds it from a body that has this member *)
Definition proto_text : object :=
  [ field "name" (text " Ann ");
    field "performance" (VNum (Fin 75));
    field "subject" (text "Algebra");
    field "__proto__" (text " <b>x</b> ") ].

(** a record that owns an object under the key [__proto__] *)
Definition proto_object : object :=
  [ field "name" (text "Ann");
    field "performance" (VNum (Fin 75));
    field "subject" (text "Algebra");
    field "__proto__" (VObj [ field "learningStyle" (text "<script>") ]) ].

(** a valid record whose weakAreas is [false] *)
Definition false_areas : object :=
  [ field "name" (text "Ann");
    field "performance" (VNum (Fin 75));
    field "subject" (text "Algebra");
    field "weakAreas" (VBool false) ].

(** a valid record with a weak area that cannot be turned into a string *)
Definition unprintable_area : object :=
  [ field "name" (text "Ann");
    field "performance" (VNum (Fin 60));
    field "subject" (text "Algebra");
    field "weakAreas" (VArr [VObj [ field "toString" (VNum (Fin 1)) ]]) ].


(** the second record of the test suite with a learning style *)
Definition jane_smith_visual : object :=
  jane_smith ++ [ field "learningStyle" (text "visual") ].

(** the criteria of a request: a weight of 1 *)
Definition full_weight : object := [ field "weight" (VNum (Fin 1)) ].

(** stores holding the objects of a request body *)
Definition store_bob : heap := {[ 1%positive := plain bob_markup ]}.
Definition store_zero : heap := {[ 1%positive := plain zero_score ]}.
Definition store_jane : heap :=
  {[ 1%positive := plain jane_smith; 2%positive := plain full_weight ]}.
Definition store_proto : heap := {[ 1%positive := plain proto_object ]}.

(** the recommendation sentence as the specification words it: the
    fallback for the strengths only when there are none *)
Definition recommendations_as_specified (weakAreas strengths : list jstr) : jstr :=
  match weakAreas with
  | [] => lit "Continue building on current strengths"
  | _ :: _ =>
      lit "Focus on " ++ join_with (lit " and ") (take 2 weakAreas)
      ++ lit " while leveraging strengths in "
      ++ match strengths with
         | [] => lit "identified areas"
         | _ :: _ => join_with (lit " and ") strengths
         end
  end.

(** the areas text as the specification words it: the fallback only when
    there are no weak areas *)
Definition areas_as_specified (weakAreas : list jstr) : jstr :=
  match weakAreas with
  | [] => lit "general concepts"
  | _ :: _ => join_with (lit ", ") weakAreas
  end.

(** conversions for evaluating the engine where none is called: every
    string is taken for NaN and every number printed as nothing *)
Definition no_conversions : Conversions :=
  {| StringToNumber := λ _, NaN; NumberToString := λ _, [] |}.

(** ** Verdicts *)

Section Verdicts.
Context `{!Conversions}.

(** the validator returns a valid verdict *)
Definition valid (sd : object) : Prop :=
  ∃ v, validateStudentData sd = Returns v ∧ isValid v = true.

(** the range check of the student validator: skipped, hence passed, on
    an absent performance *)
Definition range_check (sd : object) : outcome bool :=
  if negb (is_undefined (get sd (lit "performance")))
  then out_of_range (get sd (lit "performance")) 0 100
  else Returns false.

(** the error list of the student validator, one segment per check of the
    source and in its order, [bad] being the answer of the range check *)
Definition student_errors (sd : object) (bad : bool) : list jstr :=
  (if negb (truthy (get sd (lit "name")))
   then [lit "name is required"] else [])
  ++ (if negb (truthy (get sd (lit "performance")))
      then [lit "performance is required"] else [])
  ++ (if negb (truthy (get sd (lit "subject")))
      then [lit "subject is required"] else [])
  ++ (if bad
      then [lit "Performance must be a number between 0 and 100"] else [])
  ++ (if truthy (get sd (lit "name")) && negb (is_string (get sd (lit "name")))
      then [lit "Name must be a string"] else [])
  ++ (if truthy (get sd (lit "subject"))
         && negb (is_string (get sd (lit "subject")))
      then [lit "Subject must be a string"] else [])
  ++ (if truthy (get sd (lit "weakAreas"))
         && negb (is_array (get sd (lit "weakAreas")))
      then [lit "Weak areas must be an array"] else [])
  ++ (if truthy (get sd (lit "strengths"))
         && negb (is_array (get sd (lit "strengths")))
      then [lit "Strengths must be an array"] else []).

(** the range check of the criteria validator on the weight *)
Definition weight_check (criteria : value) : outcome bool :=
  if negb (is_undefined (member criteria (lit "weight")))
  then out_of_range (member criteria (lit "weight")) 0 1
  else Returns false.

(** the error list of the criteria validator on an object or an array *)
Definition criteria_errors (criteria : value) (bad : bool) : list jstr :=
  (if truthy (member criteria (lit "rubric"))
      && negb (typeof_object (member criteria (lit "rubric")))
   then [lit "Rubric must be an object"] else [])
  ++ (if bad then [lit "Weight must be a number between 0 and 1"] else []).

End Verdicts.

(** * Properties *)

(** a character is absent from a literal *)
Ltac absent := apply (bool_decide_unpack _); vm_compute; exact I.

Section Properties.
Context `{!Conversions}.

(** ** Classification *)

Lemma levels_distinct :
  excellent ≠ good ∧ excellent ≠ needsImprovement ∧ good ≠ needsImprovement.
Proof. repeat split; intros E; vm_compute in E; discriminate E. Qed.

Lemma num_ge_Fin (a b : Q) : num_ge (Fin a) (Fin b) = Qle_bool b a.
Proof. unfold num_ge, lessThan. by destruct (Qle_bool b a). Qed.

Lemma Qle_bool_false (a b : Q) : (b < a)%Q → Qle_bool a b = false.
Proof.
  intros Hlt. destruct (Qle_bool a b) eqn:E; [|done].
  apply Qle_bool_iff in E. by apply Qlt_not_le in Hlt.
Qed.

(** the classification of a value whose number is known *)
Lemma assess_number (v : value) (n : number) :
  ToNumber v = Returns n →
  assessPerformance v
  = Returns (if num_ge n (Fin 85) then excellent
             else if num_ge n (Fin 70) then good else needsImprovement).
Proof.
  intros Hn. unfold assessPerformance, ge. rewrite Hn.
  cbn [mbind outcome_bind]. destruct (num_ge n (Fin 85)); [done|].
  by destruct (num_ge n (Fin 70)).
Qed.

Lemma assess_excellent (q : Q) :
  (85 <= q)%Q → assessPerformance (VNum (Fin q)) = Returns excellent.
Proof.
  intros Hq. rewrite (assess_number _ (Fin q)) by done.
  rewrite num_ge_Fin. by apply Qle_bool_iff in Hq as ->.
Qed.

Lemma assess_good (q : Q) :
  (70 <= q)%Q → (q < 85)%Q → assessPerformance (VNum (Fin q)) = Returns good.
Proof.
  intros Hlo Hhi. rewrite (assess_number _ (Fin q)) by done.
  rewrite !num_ge_Fin, (Qle_bool_false _ _ Hhi).
  by apply Qle_bool_iff in Hlo as ->.
Qed.

Lemma assess_needsImprovement (q : Q) :
  (q < 70)%Q → assessPerformance (VNum (Fin q)) = Returns needsImprovement.
Proof.
  intros Hhi. rewrite (assess_number _ (Fin q)) by done.
  assert (q < 85)%Q as H85 by (eapply Qlt_trans; [exact Hhi|done]).
  by rewrite !num_ge_Fin, (Qle_bool_false _ _ H85), (Qle_bool_false _ _ Hhi).
Qed.

Lemma assess_is_level (v : value) (n : number) :
  ToNumber v = Returns n →
  ∃ level, assessPerformance v = Returns level
           ∧ level ∈ [excellent; good; needsImprovement].
Proof.
  intros Hn. rewrite (assess_number v n Hn). eexists. split; [done|].
  destruct (num_ge n (Fin 85)); [by left|].
  destruct (num_ge n (Fin 70)); [by right; left | by do 2 right; left].
Qed.

Lemma template_found (level : jstr) :
  level ∈ [excellent; good; needsImprovement] →
  ∃ t, template_of level feedbackTemplates = Some t
       ∧ truthy (VStr t) = true
       ∧ getBaseTemplate level = t.
Proof.
  intros Hl. repeat (apply elem_of_cons in Hl as [->|Hl]);
    [| | |by apply elem_of_nil in Hl];
    eexists; (split; [by vm_compute|]); split; by vm_compute.
Qed.

(** C1: on the scores of [0,100] the classification returns, and it is
    the three-way step function with cuts at 85 and 70, each cut belonging
    to the higher tier: [85,100] is excellent, [70,85) is good, [0,70) is
    needsImprovement, and below 85 the level is never excellent. *)
Theorem assessPerformance_tiers (q : Q) :
  (0 <= q)%Q → (q <= 100)%Q →
  (∃ level, assessPerformance (VNum (Fin q)) = Returns level
            ∧ level ∈ [excellent; good; needsImprovement])
  ∧ ((85 <= q)%Q → assessPerformance (VNum (Fin q)) = Returns excellent)
  ∧ ((q < 85)%Q → assessPerformance (VNum (Fin q)) ≠ Returns excellent)
  ∧ ((70 <= q)%Q → (q < 85)%Q →
     assessPerformance (VNum (Fin q)) = Returns good)
  ∧ ((q < 70)%Q → assessPerformance (VNum (Fin q)) = Returns needsImprovement)
  ∧ assessPerformance (VNum (Fin 85)) = Returns excellent
  ∧ assessPerformance (VNum (Fin 70)) = Returns good.
Proof.
  intros _ _. split; [by apply (assess_is_level _ (Fin q))|].
  split; [apply assess_excellent|].
  split.
  { intros Hlt. destruct (Qlt_le_dec q 70) as [Hlo|Hlo].
    - rewrite (assess_needsImprovement _ Hlo).
      destruct levels_distinct as (_ & ? & _). congruence.
    - rewrite (assess_good _ Hlo Hlt).
      destruct levels_distinct as (? & _ & _). congruence. }
  split; [apply assess_good|].
  split; [apply assess_needsImprovement|].
  split; [by apply assess_excellent | by apply assess_good].
Qed.

(** C10: whatever number it is given, NaN and the infinities included,
    [assessPerformance] returns, and what it returns is one of the three
    level names; NaN, minus infinity and every finite value below 70 give
    needsImprovement; and the table of templates has a non-empty entry
    under the returned name, which is what [getBaseTemplate] returns, so
    its fallback is not used. *)
Theorem assessPerformance_total (n : number) :
  (∃ level, assessPerformance (VNum n) = Returns level
            ∧ level ∈ [excellent; good; needsImprovement]
            ∧ ∃ t, template_of level feedbackTemplates = Some t
                   ∧ truthy (VStr t) = true
                   ∧ getBaseTemplate level = t)
  ∧ assessPerformance (VNum NaN) = Returns needsImprovement
  ∧ assessPerformance (VNum NegInf) = Returns needsImprovement
  ∧ (∀ q, (q < 70)%Q →
          assessPerformance (VNum (Fin q)) = Returns needsImprovement).
Proof.
  split.
  { destruct (assess_is_level (VNum n) n) as (level & E & Hl); [done|].
    exists level. split; [done|]. split; [done|]. by apply template_found. }
  split; [done|]. split; [done|]. apply assess_needsImprovement.
Qed.

(** ** Joins, recommendations and next steps *)

Lemma texts_strings (ws : list jstr) : texts (VStr <$> ws) = Returns ws.
Proof.
  induction ws as [|w ws IH]; [done|].
  cbn [fmap list_fmap texts elem_text nullish ToString mbind outcome_bind] in *.
  by rewrite IH.
Qed.

Lemma join_strings (sep : jstr) (ws : list jstr) :
  join sep (VStr <$> ws) = Returns (join_with sep ws).
Proof. unfold join. by rewrite texts_strings. Qed.

Lemma first_two_join (wa : list value) (focus : jstr) :
  first_two_joined wa focus → join (lit " and ") (take 2 wa) = Returns focus.
Proof. by intros [a|a b rest]. Qed.

Lemma first_two_cons (wa : list value) (focus : jstr) :
  first_two_joined wa focus → ∃ x l, wa = x :: l.
Proof. intros [a|a b rest]; by eexists _, _. Qed.

Lemma length_cons_positive {A} (x : A) (l : list A) :
  num_gt (num_of_nat (length (x :: l))) (Fin 0) = true.
Proof.
  unfold num_gt, num_of_nat, lessThan.
  rewrite Qle_bool_false; [done|].
  unfold Qlt. cbn [length inject_Z Qnum Qden]. lia.
Qed.

Lemma length_cons_not_zero {A} (x : A) (l : list A) :
  is_zero (VNum (num_of_nat (length (x :: l)))) = false.
Proof.
  unfold is_zero, num_of_nat.
  destruct (Qeq_bool _ 0) eqn:E; [|done].
  apply Qeq_bool_iff in E. unfold Qeq in E.
  cbn [length inject_Z Qnum Qden] in E. lia.
Qed.

Lemma has_entries_cons (x : value) (l : list value) :
  has_entries (VArr (x :: l)) = Returns true.
Proof.
  unfold has_entries, gt. cbn [truthy prop_length ToNumber mbind outcome_bind].
  by rewrite (length_cons_positive x l).
Qed.

Lemma has_entries_falsy (v : value) :
  truthy v = false → has_entries v = Returns false.
Proof. unfold has_entries. by intros ->. Qed.

Lemma opt_join_nullish (sep : jstr) (v : value) :
  nullish v = true → opt_join v sep = Returns VUndefined.
Proof. unfold opt_join. by intros ->. Qed.

Lemma opt_join_strings (sep : jstr) (ws : list jstr) :
  opt_join (VArr (VStr <$> ws)) sep = Returns (VStr (join_with sep ws)).
Proof.
  unfold opt_join. cbn [nullish call_join]. by rewrite join_strings.
Qed.

Lemma or_else_joined (sep fallback : jstr) (ws : list jstr) :
  or_else (VStr (join_with sep ws)) (VStr fallback)
  = VStr (joined_or sep fallback ws).
Proof.
  unfold or_else, joined_or, truthy.
  by destruct (bool_decide (join_with sep ws = [])).
Qed.

Lemma generateRecommendations_empty (weakAreas strengths : value) :
  weakAreas = VUndefined ∨ weakAreas = VNull ∨ weakAreas = VArr [] →
  generateRecommendations weakAreas strengths
  = Returns (lit "Continue building on current strengths").
Proof. by intros [->|[->| ->]]. Qed.

(** with weak areas, the sentence is built from the first two of them and
    from what [strengths?.join(' and ')] gives *)
Lemma generateRecommendations_focus
    (wa : list value) (focus : jstr) (strengths : value) :
  first_two_joined wa focus →
  generateRecommendations (VArr wa) strengths
  = st ← opt_join strengths (lit " and ");
    leverage ← ToString (or_else st (VStr (lit "identified areas")));
    Returns (lit "Focus on " ++ focus ++ lit " while leveraging strengths in "
             ++ leverage).
Proof.
  intros Hf. destruct (first_two_cons _ _ Hf) as (x & l & ->).
  unfold generateRecommendations.
  cbn [truthy negb orb prop_length]. rewrite length_cons_not_zero.
  cbn [call_slice mbind outcome_bind call_join].
  by rewrite (first_two_join _ _ Hf).
Qed.

Lemma generateRecommendations_strings
    (wa : list value) (focus : jstr) (ss : list jstr) :
  first_two_joined wa focus →
  generateRecommendations (VArr wa) (VArr (VStr <$> ss))
  = Returns (lit "Focus on " ++ focus ++ lit " while leveraging strengths in "
             ++ joined_or (lit " and ") (lit "identified areas") ss).
Proof.
  intros Hf. rewrite (generateRecommendations_focus _ _ _ Hf).
  rewrite opt_join_strings. cbn [mbind outcome_bind].
  by rewrite or_else_joined.
Qed.

Lemma generateRecommendations_no_strengths
    (wa : list value) (focus : jstr) (strengths : value) :
  first_two_joined wa focus → nullish strengths = true →
  generateRecommendations (VArr wa) strengths
  = Returns (lit "Focus on " ++ focus ++ lit " while leveraging strengths in "
             ++ lit "identified areas").
Proof.
  intros Hf Hs. rewrite (generateRecommendations_focus _ _ _ Hf).
  by rewrite (opt_join_nullish _ _ Hs).
Qed.

(** C5, as amended: without weak areas (absent or an empty array) the
    result is the fixed sentence whatever the strengths are; with weak
    areas that start with text labels it is "Focus on ", the first label
    alone or the first two joined by " and ", " while leveraging strengths
    in ", and then the strengths, text labels too, joined by " and " when
    that text is not empty, "identified areas" when the strengths are
    absent or their joined text is empty.  The last three lines say what
    joining by " and " is. *)
Theorem generateRecommendations_cases
    (strengths : value) (wa : list value) (focus : jstr) (ss : list jstr) :
  first_two_joined wa focus →
  generateRecommendations VUndefined strengths
  = Returns (lit "Continue building on current strengths")
  ∧ generateRecommendations VNull strengths
    = Returns (lit "Continue building on current strengths")
  ∧ generateRecommendations (VArr []) strengths
    = Returns (lit "Continue building on current strengths")
  ∧ generateRecommendations (VArr wa) (VArr (VStr <$> ss))
    = Returns (lit "Focus on " ++ focus
               ++ lit " while leveraging strengths in "
               ++ (if bool_decide (join_with (lit " and ") ss = [])
                   then lit "identified areas"
                   else join_with (lit " and ") ss))
  ∧ generateRecommendations (VArr wa) VUndefined
    = Returns (lit "Focus on " ++ focus
               ++ lit " while leveraging strengths in "
               ++ lit "identified areas")
  ∧ generateRecommendations (VArr wa) VNull
    = Returns (lit "Focus on " ++ focus
               ++ lit " while leveraging strengths in "
               ++ lit "identified areas")
  ∧ join_with (lit " and ") [] = []
  ∧ (∀ a, join_with (lit " and ") [a] = a)
  ∧ (∀ a b l, join_with (lit " and ") (a :: b :: l)
              = a ++ lit " and " ++ join_with (lit " and ") (b :: l)).
Proof.
  intros Hf.
  split; [by apply generateRecommendations_empty; left|].
  split; [by apply generateRecommendations_empty; right; left|].
  split; [by apply generateRecommendations_empty; right; right|].
  split; [by apply generateRecommendations_strings|].
  split; [by apply generateRecommendations_no_strengths|].
  split; [by apply generateRecommendations_no_strengths|].
  by repeat split.
Qed.

(** C7: the next steps are the two fixed lines of the level for excellent
    and for good, whatever the weak areas; for needsImprovement they are
    its two fixed lines when the weak areas are absent or empty, and those
    two followed by "Focus specifically on: " and the first weak area
    alone, or the first two joined by " and ", when the weak areas start
    with text labels. *)
Theorem generateNextSteps_cases
    (weakAreas : value) (wa : list value) (focus : jstr) :
  first_two_joined wa focus →
  generateNextSteps excellent weakAreas
  = Returns [lit "Explore advanced topics and challenges";
             lit "Consider peer tutoring opportunities"]
  ∧ generateNextSteps good weakAreas
    = Returns [lit "Practice additional exercises in identified areas";
               lit "Seek clarification on challenging concepts"]
  ∧ generateNextSteps needsImprovement (VArr [])
    = Returns [lit "Schedule additional support sessions";
               lit "Review fundamental concepts"]
  ∧ generateNextSteps needsImprovement VUndefined
    = Returns [lit "Schedule additional support sessions";
               lit "Review fundamental concepts"]
  ∧ generateNextSteps needsImprovement VNull
    = Returns [lit "Schedule additional support sessions";
               lit "Review fundamental concepts"]
  ∧ generateNextSteps needsImprovement (VArr wa)
    = Returns [lit "Schedule additional support sessions";
               lit "Review fundamental concepts";
               lit "Focus specifically on: " ++ focus].
Proof.
  intros Hf. do 5 (split; [done|]).
  destruct (first_two_cons _ _ Hf) as (x & l & ->).
  unfold generateNextSteps.
  change (jstr_eqb needsImprovement excellent) with false.
  change (jstr_eqb needsImprovement good) with false.
  change (jstr_eqb needsImprovement needsImprovement) with true.
  cbn iota. rewrite has_entries_cons.
  cbn [call_slice mbind outcome_bind call_join].
  by rewrite (first_two_join _ _ Hf).
Qed.

(** ** The student validator *)

Lemma validateStudentData_eq (sd : object) :
  validateStudentData sd
  = bad ← range_check sd;
    Returns {| isValid := bool_decide (length (student_errors sd bad) = 0);
               errors := student_errors sd bad |}.
Proof.
  unfold validateStudentData, range_check, student_errors. cbn [foldl].
  destruct (negb (is_undefined (get sd (lit "performance"))));
    [destruct (out_of_range _ 0 100) as [bad|e]; [|done]|];
    cbn [mbind outcome_bind]; cbv zeta;
    generalize (truthy (get sd (lit "strengths"))
                && negb (is_array (get sd (lit "strengths"))));
    generalize (truthy (get sd (lit "weakAreas"))
                && negb (is_array (get sd (lit "weakAreas"))));
    generalize (truthy (get sd (lit "subject"))
                && negb (is_string (get sd (lit "subject"))));
    generalize (truthy (get sd (lit "name"))
                && negb (is_string (get sd (lit "name"))));
    generalize (negb (truthy (get sd (lit "subject"))));
    generalize (negb (truthy (get sd (lit "performance"))));
    generalize (negb (truthy (get sd (lit "name"))));
    intros b1 b2 b3 b4 b5 b6 b7.
  - destruct b1, b2, b3, b4, b5, b6, b7, bad; reflexivity.
  - destruct b1, b2, b3, b4, b5, b6, b7; reflexivity.
Qed.

Lemma if_singleton_nil {A} (b : bool) (x : A) :
  (if b then [x] else []) = [] → b = false.
Proof. by destruct b. Qed.

Lemma student_errors_nil (sd : object) (bad : bool) :
  student_errors sd bad = [] ↔
    truthy (get sd (lit "name")) = true
    ∧ truthy (get sd (lit "performance")) = true
    ∧ truthy (get sd (lit "subject")) = true
    ∧ bad = false
    ∧ is_string (get sd (lit "name")) = true
    ∧ is_string (get sd (lit "subject")) = true
    ∧ (truthy (get sd (lit "weakAreas")) = false
       ∨ is_array (get sd (lit "weakAreas")) = true)
    ∧ (truthy (get sd (lit "strengths")) = false
       ∨ is_array (get sd (lit "strengths")) = true).
Proof.
  unfold student_errors. split.
  - intros E.
    repeat (apply app_eq_nil in E as [?%if_singleton_nil E]).
    apply if_singleton_nil in E.
    destruct (truthy (get sd (lit "name"))),
      (truthy (get sd (lit "performance"))),
      (truthy (get sd (lit "subject"))), bad,
      (is_string (get sd (lit "name"))),
      (is_string (get sd (lit "subject"))),
      (truthy (get sd (lit "weakAreas"))),
      (truthy (get sd (lit "strengths"))),
      (is_array (get sd (lit "weakAreas"))),
      (is_array (get sd (lit "strengths"))); try done; repeat split; auto.
  - intros (-> & -> & -> & -> & -> & -> & Hw & Hs).
    by destruct Hw as [-> | ->], Hs as [-> | ->];
      cbn [negb andb app]; rewrite ?andb_false_r.
Qed.

Lemma out_of_range_false (v : value) (lo hi : Q) :
  out_of_range v lo hi = Returns false
  ↔ ∃ n, ToNumber v = Returns n ∧ in_range n lo hi.
Proof.
  unfold out_of_range, in_range. destruct (ToNumber v) as [n|e].
  - cbn [mbind outcome_bind]. split.
    + intros [= E]. exists n. split; [done|].
      destruct n as [| |q|]; try done.
      unfold num_lt, num_gt, lessThan in E. cbn [isNaN orb] in E.
      exists q. rewrite <- !Qle_bool_iff.
      by destruct (Qle_bool lo q), (Qle_bool q hi).
    + intros (n' & [= <-] & q & -> & Hlo & Hhi).
      unfold num_lt, num_gt, lessThan. cbn [isNaN orb].
      by apply Qle_bool_iff in Hlo as ->; apply Qle_bool_iff in Hhi as ->.
  - split; [done|]. by intros (n & ? & _).
Qed.

(** what a valid verdict says about the fields the engine reads *)
Lemma valid_fields (sd : object) :
  valid sd ↔
    (∃ n, get sd (lit "name") = VStr n ∧ n ≠ [])
    ∧ (∃ s, get sd (lit "subject") = VStr s ∧ s ≠ [])
    ∧ truthy (get sd (lit "performance")) = true
    ∧ (∃ n, ToNumber (get sd (lit "performance")) = Returns n
            ∧ in_range n 0 100)
    ∧ (truthy (get sd (lit "weakAreas")) = false
       ∨ is_array (get sd (lit "weakAreas")) = true)
    ∧ (truthy (get sd (lit "strengths")) = false
       ∨ is_array (get sd (lit "strengths")) = true).
Proof.
  assert (∀ v, (∃ s, v = VStr s ∧ s ≠ [])
               ↔ truthy v = true ∧ is_string v = true) as Hstr.
  { intros v. split.
    - intros (s & -> & Hs). cbn. by rewrite bool_decide_eq_false_2.
    - intros [Ht Hs]. destruct v; try done. eexists. split; [done|].
      intros ->. done. }
  unfold valid. rewrite validateStudentData_eq, !Hstr, <- out_of_range_false.
  unfold range_check. split.
  - intros (v & Hv & Hvalid).
    destruct (negb (is_undefined (get sd (lit "performance")))) eqn:Eu.
    + destruct (out_of_range _ 0 100) as [bad|e]; [|done].
      injection Hv as <-. cbn [isValid] in Hvalid.
      apply bool_decide_eq_true, length_zero_iff_nil, student_errors_nil
        in Hvalid as (? & ? & ? & -> & ? & ? & ? & ?).
      by repeat split.
    + injection Hv as <-. cbn [isValid] in Hvalid.
      apply bool_decide_eq_true, length_zero_iff_nil, student_errors_nil
        in Hvalid as (? & Hp & _).
      apply negb_false_iff in Eu.
      by destruct (get sd (lit "performance")).
  - intros ((Hn & Hns) & (Hs & Hss) & Hp & Hr & Hw & Hst).
    assert (negb (is_undefined (get sd (lit "performance"))) = true) as ->
      by (by destruct (get sd (lit "performance"))).
    rewrite Hr. eexists. split; [done|]. cbn [isValid].
    apply bool_decide_eq_true, length_zero_iff_nil, student_errors_nil.
    by repeat split.
Qed.

(** C8, as amended: a record without name, performance and subject gets an
    invalid verdict whose error list starts with the three "is required"
    messages in the order name, performance, subject; the only entries that
    can follow are the array-type errors of weakAreas and strengths, so the
    list is exactly those three whenever weakAreas and strengths are each
    falsy or an array, whatever learningStyle is. *)
Theorem validateStudentData_missing_required (sd : object) :
  get sd (lit "name") = VUndefined →
  get sd (lit "performance") = VUndefined →
  get sd (lit "subject") = VUndefined →
  ∃ v, validateStudentData sd = Returns v
       ∧ isValid v = false
       ∧ errors v
         = [lit "name is required"; lit "performance is required";
            lit "subject is required"]
           ++ (if truthy (get sd (lit "weakAreas"))
                  && negb (is_array (get sd (lit "weakAreas")))
               then [lit "Weak areas must be an array"] else [])
           ++ (if truthy (get sd (lit "strengths"))
                  && negb (is_array (get sd (lit "strengths")))
               then [lit "Strengths must be an array"] else [])
       ∧ (truthy (get sd (lit "weakAreas"))
          && negb (is_array (get sd (lit "weakAreas"))) = false →
          truthy (get sd (lit "strengths"))
          && negb (is_array (get sd (lit "strengths"))) = false →
          errors v
          = [lit "name is required"; lit "performance is required";
             lit "subject is required"]).
Proof.
  intros Hn Hp Hs. rewrite validateStudentData_eq.
  unfold range_check, student_errors. rewrite Hn, Hp, Hs.
  cbn [is_undefined negb mbind outcome_bind truthy andb app].
  eexists. split; [done|]. cbn [isValid errors].
  split; [done|]. split; [done|].
  by intros -> ->.
Qed.

(** C4: the record [zero_score] has a non-empty name and subject and the
    score 0, which lies in [0,100], and no optional field; the validator
    refuses it and reports its score as missing. *)
Theorem validateStudentData_rejects_zero :
  get zero_score (lit "name") = text "Ann"
  ∧ get zero_score (lit "subject") = text "Algebra"
  ∧ get zero_score (lit "performance") = VNum (Fin 0)
  ∧ (0 <= 0)%Q ∧ (0 <= 100)%Q
  ∧ validateStudentData zero_score
    = Returns {| isValid := false;
                 errors := [lit "performance is required"] |}.
Proof. by repeat split. Qed.

(** ** The engine on the records of the data model *)

Lemma labels_cases (v : value) (ws : list jstr) :
  labels v ws →
  (v = VUndefined ∧ ws = []) ∨ (v = VNull ∧ ws = []) ∨ v = VArr (VStr <$> ws).
Proof.
  intros [[Hn ->]| ->]; [|by right; right].
  destruct v; try done; [by left | by right; left].
Qed.

Lemma first_two_labels (a : jstr) (rest : list jstr) :
  first_two_joined (VStr <$> a :: rest)
                   (join_with (lit " and ") (take 2 (a :: rest))).
Proof. destruct rest as [|b rest]; constructor. Qed.

Lemma generateRecommendations_labels
    (weakAreas strengths : value) (ws ss : list jstr) :
  labels weakAreas ws → labels strengths ss →
  generateRecommendations weakAreas strengths
  = Returns
      (match ws with
       | [] => lit "Continue building on current strengths"
       | _ :: _ =>
           lit "Focus on " ++ join_with (lit " and ") (take 2 ws)
           ++ lit " while leveraging strengths in "
           ++ joined_or (lit " and ") (lit "identified areas") ss
       end).
Proof.
  intros Hw Hs.
  destruct (labels_cases _ _ Hw) as [[-> ->]|[[-> ->]| ->]]; try done.
  destruct ws as [|a rest]; [done|].
  pose proof (first_two_labels a rest) as Hf.
  destruct (labels_cases _ _ Hs) as [[-> ->]|[[-> ->]| ->]].
  - by rewrite (generateRecommendations_no_strengths _ _ _ Hf).
  - by rewrite (generateRecommendations_no_strengths _ _ _ Hf).
  - by rewrite (generateRecommendations_strings _ _ _ Hf).
Qed.

Lemma bindings_labels (sd : object) (ws ss : list jstr) :
  labels (get sd (lit "weakAreas")) ws →
  labels (get sd (lit "strengths")) ss →
  ∃ recs,
    generateRecommendations (get sd (lit "weakAreas")) (get sd (lit "strengths"))
    = Returns recs
    ∧ bindings sd
      = Returns
          [ (lit "student", get sd (lit "name"));
            (lit "topic", get sd (lit "subject"));
            (lit "areas",
             VStr (joined_or (lit ", ") (lit "general concepts") ws));
            (lit "recommendations", VStr recs) ].
Proof.
  intros Hw Hs. eexists. split; [by eapply generateRecommendations_labels|].
  unfold bindings. rewrite (generateRecommendations_labels _ _ _ _ Hw Hs).
  destruct (labels_cases _ _ Hw) as [[-> ->]|[[-> ->]| ->]]; try done.
  rewrite opt_join_strings. cbn [mbind outcome_bind].
  by rewrite or_else_joined.
Qed.

Lemma has_entries_labels (v : value) (ws : list jstr) :
  labels v ws →
  has_entries v = Returns (match ws with [] => false | _ :: _ => true end).
Proof.
  intros Hv. destruct (labels_cases _ _ Hv) as [[-> ->]|[[-> ->]| ->]];
    try done.
  destruct ws as [|a rest]; [done|]. apply has_entries_cons.
Qed.

Lemma call_join_labels (v : value) (sep a : jstr) (rest : list jstr) :
  labels v (a :: rest) → call_join v sep = Returns (join_with sep (a :: rest)).
Proof.
  intros Hv. destruct (labels_cases _ _ Hv) as [[_ ?]|[[_ ?]| ->]]; try done.
  apply join_strings.
Qed.

(** the detailed recommendations on sequences of text labels *)
Lemma generateDetailedRecommendations_labels
    (sd : object) (ws ss : list jstr) (style : jstr) :
  labels (get sd (lit "weakAreas")) ws →
  labels (get sd (lit "strengths")) ss →
  ToString (get sd (lit "learningStyle")) = Returns style →
  generateDetailedRecommendations sd
  = Returns
      (match ws with
       | [] => []
       | _ :: _ => [lit "Target improvement areas: " ++ join_with (lit ", ") ws]
       end
       ++ match ss with
          | [] => []
          | _ :: _ => [lit "Build upon strengths: " ++ join_with (lit ", ") ss]
          end
       ++ if truthy (get sd (lit "learningStyle"))
          then [lit "Adapt teaching methods for " ++ style
                ++ lit " learning style"]
          else []).
Proof.
  intros Hw Hs Hl. unfold generateDetailedRecommendations.
  rewrite (has_entries_labels _ _ Hw), (has_entries_labels _ _ Hs), Hl.
  destruct ws as [|a ws], ss as [|b ss]; cbn [mbind outcome_bind];
    rewrite ?(call_join_labels _ _ _ _ Hw), ?(call_join_labels _ _ _ _ Hs);
    cbn [mbind outcome_bind];
    by destruct (truthy (get sd (lit "learningStyle"))).
Qed.

Lemma generateNextSteps_labels (level : jstr) (weakAreas : value)
    (ws : list jstr) :
  labels weakAreas ws →
  ∃ steps, generateNextSteps level weakAreas = Returns steps.
Proof.
  intros Hw. unfold generateNextSteps.
  destruct (jstr_eqb level excellent); [by eexists|].
  destruct (jstr_eqb level good); [by eexists|].
  destruct (jstr_eqb level needsImprovement); [|by eexists].
  rewrite (has_entries_labels _ _ Hw).
  destruct ws as [|a rest]; [by eexists|].
  destruct (labels_cases _ _ Hw) as [[_ ?]|[[_ ?]| ->]]; try done.
  cbn [mbind outcome_bind call_slice call_join].
  rewrite (first_two_join _ _ (first_two_labels a rest)). by eexists.
Qed.

Lemma personalizeFeedback_four (t : jstr) (v1 v2 : value) (n s a r : jstr) :
  ToString v1 = Returns n → ToString v2 = Returns s →
  personalizeFeedback t
    [ (lit "student", v1); (lit "topic", v2); (lit "areas", VStr a);
      (lit "recommendations", VStr r) ]
  = Returns
      (replace
         (replace
            (replace (replace t (lbrace :: lit "student}") n)
                     (lbrace :: lit "topic}") s)
            (lbrace :: lit "areas}") a)
         (lbrace :: lit "recommendations}") r).
Proof.
  intros H1 H2. unfold personalizeFeedback.
  change (keys _)
    with [lit "student"; lit "topic"; lit "areas"; lit "recommendations"].
  cbn [foldl].
  change (get _ (lit "student")) with v1.
  change (get _ (lit "topic")) with v2.
  change (get _ (lit "areas")) with (VStr a).
  change (get _ (lit "recommendations")) with (VStr r).
  rewrite H1, H2. reflexivity.
Qed.

(** on a record whose name, subject and learning style can be turned into
    strings and whose score into a number, and whose sequences hold text
    labels, every step of the engine returns *)
Lemma generateFeedback_returns
    (now : jstr) (sd : object) (criteria : value) (ws ss : list jstr)
    (n s : jstr) :
  ToString (get sd (lit "name")) = Returns n →
  ToString (get sd (lit "subject")) = Returns s →
  (∃ score, ToNumber (get sd (lit "performance")) = Returns score) →
  labels (get sd (lit "weakAreas")) ws →
  labels (get sd (lit "strengths")) ss →
  (∃ style, ToString (get sd (lit "learningStyle")) = Returns style) →
  ∃ level recs r,
    assessPerformance (get sd (lit "performance")) = Returns level
    ∧ level ∈ [excellent; good; needsImprovement]
    ∧ generateRecommendations (get sd (lit "weakAreas"))
                              (get sd (lit "strengths")) = Returns recs
    ∧ generateFeedback now sd criteria = Returns r
    ∧ performanceLevel r = level
    ∧ feedback r
      = replace
          (replace
             (replace (replace (getBaseTemplate level)
                               (lbrace :: lit "student}") n)
                      (lbrace :: lit "topic}") s)
             (lbrace :: lit "areas}")
             (joined_or (lit ", ") (lit "general concepts") ws))
          (lbrace :: lit "recommendations}") recs.
Proof.
  intros Hn Hsub (score & Hscore) Hw Hs (style & Hstyle).
  destruct (assess_is_level _ _ Hscore) as (level & Hlevel & Hin).
  destruct (bindings_labels sd ws ss Hw Hs) as (recs & Hrecs & Hb).
  destruct (generateNextSteps_labels level _ _ Hw) as (steps & Hsteps).
  exists level, recs. eexists.
  split; [done|]. split; [done|]. split; [done|].
  unfold generateFeedback.
  rewrite Hlevel, Hb. cbn [mbind outcome_bind].
  rewrite (personalizeFeedback_four _ _ _ _ _ _ _ Hn Hsub).
  cbn [mbind outcome_bind].
  rewrite (generateDetailedRecommendations_labels _ _ _ _ Hw Hs Hstyle).
  cbn [mbind outcome_bind]. rewrite Hsteps. cbn [mbind outcome_bind].
  by repeat split.
Qed.

(** a valid record has strings for name and subject and a number of
    [0,100] for its score *)
Lemma valid_conversions (sd : object) :
  valid sd →
  ∃ n s, get sd (lit "name") = VStr n
         ∧ get sd (lit "subject") = VStr s
         ∧ ∃ score, ToNumber (get sd (lit "performance")) = Returns score.
Proof.
  intros ((n & Hn & _) & (s & Hs & _) & _ & (num & Hnum & _) & _)%valid_fields.
  exists n, s. split; [done|]. split; [done|]. by exists num.
Qed.

(** C3: the level in the result does not depend on the criteria (nor on
    the clock): two calls on the same record agree on it, or fail alike; it
    is the classification of the record's score; and both calls do return
    on a record whose name, subject and learning style can be turned into
    strings and whose score into a number, as it is for every valid record,
    and whose sequences are absent or hold text labels. *)
Theorem generateFeedback_ignores_criteria
    (now1 now2 : jstr) (sd : object) (criteria1 criteria2 : value) :
  performanceLevel <$> generateFeedback now1 sd criteria1
  = performanceLevel <$> generateFeedback now2 sd criteria2
  ∧ (∀ r, generateFeedback now1 sd criteria1 = Returns r →
          assessPerformance (get sd (lit "performance"))
          = Returns (performanceLevel r))
  ∧ (∀ ws ss,
       (∃ n, ToString (get sd (lit "name")) = Returns n) →
       (∃ s, ToString (get sd (lit "subject")) = Returns s) →
       (∃ score, ToNumber (get sd (lit "performance")) = Returns score) →
       labels (get sd (lit "weakAreas")) ws →
       labels (get sd (lit "strengths")) ss →
       (∃ style, ToString (get sd (lit "learningStyle")) = Returns style) →
       ∃ r1 r2, generateFeedback now1 sd criteria1 = Returns r1
                ∧ generateFeedback now2 sd criteria2 = Returns r2
                ∧ performanceLevel r1 = performanceLevel r2)
  ∧ (valid sd →
     (∃ n, ToString (get sd (lit "name")) = Returns n)
     ∧ (∃ s, ToString (get sd (lit "subject")) = Returns s)
     ∧ (∃ score, ToNumber (get sd (lit "performance")) = Returns score)).
Proof.
  split; [|split; [|split]].
  - unfold generateFeedback.
    destruct (assessPerformance _) as [level|]; [|done].
    cbn [mbind outcome_bind].
    destruct (bindings sd) as [data|]; [|done]. cbn [mbind outcome_bind].
    destruct (personalizeFeedback _ _); [|done]. cbn [mbind outcome_bind].
    destruct (generateDetailedRecommendations sd); [|done].
    cbn [mbind outcome_bind].
    by destruct (generateNextSteps _ _).
  - unfold generateFeedback. intros r.
    destruct (assessPerformance _) as [level|]; [|done].
    cbn [mbind outcome_bind].
    destruct (bindings sd) as [data|]; [|done]. cbn [mbind outcome_bind].
    destruct (personalizeFeedback _ _); [|done]. cbn [mbind outcome_bind].
    destruct (generateDetailedRecommendations sd); [|done].
    cbn [mbind outcome_bind].
    destruct (generateNextSteps _ _); [|done].
    cbn [mbind outcome_bind]. by intros [= <-].
  - intros ws ss (n & Hn) (s & Hsub) Hscore Hw Hs Hstyle.
    destruct (generateFeedback_returns now1 sd criteria1 ws ss n s
                Hn Hsub Hscore Hw Hs Hstyle)
      as (l1 & _ & r1 & E1 & _ & _ & H1 & L1 & _).
    destruct (generateFeedback_returns now2 sd criteria2 ws ss n s
                Hn Hsub Hscore Hw Hs Hstyle)
      as (l2 & _ & r2 & E2 & _ & _ & H2 & L2 & _).
    exists r1, r2. split; [done|]. split; [done|]. congruence.
  - intros (n & s & Hn & Hs & Hscore)%valid_conversions.
    rewrite Hn, Hs. split; [by eexists|]. split; [by eexists|]. done.
Qed.

(** C6, as amended: on a record whose weakAreas and strengths are
    absent or arrays of text labels, the areas slot holds the weak areas
    joined with ", " when that joined text is not empty, and "general
    concepts" when it is empty, which is the case of an absent or empty
    sequence.  The last three lines say what joining by ", " is. *)
Theorem areas_binding (sd : object) (ws ss : list jstr) :
  labels (get sd (lit "weakAreas")) ws →
  labels (get sd (lit "strengths")) ss →
  (∃ data,
    bindings sd = Returns data
    ∧ get data (lit "areas")
      = VStr (if bool_decide (join_with (lit ", ") ws = [])
              then lit "general concepts"
              else join_with (lit ", ") ws)
    ∧ (ws = [] → get data (lit "areas") = VStr (lit "general concepts")))
  ∧ join_with (lit ", ") [] = []
  ∧ (∀ a, join_with (lit ", ") [a] = a)
  ∧ (∀ a b l, join_with (lit ", ") (a :: b :: l)
              = a ++ lit ", " ++ join_with (lit ", ") (b :: l)).
Proof.
  intros Hw Hs. split; [|by repeat split].
  destruct (bindings_labels sd ws ss Hw Hs) as (recs & _ & Hb).
  eexists. split; [exact Hb|]. split; [done|].
  by intros ->.
Qed.

(** ** Occurrences and the first match *)

Lemma occurs_nil (s : jstr) : occurs [] s.
Proof. by exists [], s. Qed.

Lemma occurs_cons (p : jstr) (c : char) (s : jstr) :
  occurs p s → occurs p (c :: s).
Proof. intros (a & b & ->). by exists (c :: a), b. Qed.

Lemma occurs_app_l (p x y : jstr) : occurs p x → occurs p (x ++ y).
Proof.
  intros (a & b & ->). exists a, (b ++ y). by rewrite <- !app_assoc.
Qed.

Lemma occurs_app_r (p x y : jstr) : occurs p y → occurs p (x ++ y).
Proof.
  intros (a & b & ->). exists (x ++ a), b. by rewrite <- !app_assoc.
Qed.

Lemma occurs_cons_inv (p : jstr) (c : char) (s : jstr) :
  occurs p (c :: s) → p `prefix_of` (c :: s) ∨ occurs p s.
Proof.
  intros ([|d a] & b & E).
  - left. by exists b.
  - right. injection E as -> ->. by exists a, b.
Qed.

Lemma prefix_occurs (p s : jstr) : p `prefix_of` s → occurs p s.
Proof. intros (b & ->). by exists [], b. Qed.

Lemma split_first_unfold (p s : jstr) :
  split_first p s
  = if bool_decide (take (length p) s = p)
    then Some ([], drop (length p) s)
    else match s with
         | [] => None
         | c :: s' => (λ '(a, b), (c :: a, b)) <$> split_first p s'
         end.
Proof. by destruct s. Qed.

Lemma split_first_Some (p s a b : jstr) :
  split_first p s = Some (a, b) → s = a ++ p ++ b.
Proof.
  revert a b. induction s as [|c s IH]; intros a b; rewrite split_first_unfold.
  - case_bool_decide as E; [|done]. intros [= <- <-].
    pose proof (take_drop (length p) (@nil char)) as Htd.
    by rewrite E in Htd.
  - case_bool_decide as E.
    + intros [= <- <-].
      pose proof (take_drop (length p) (c :: s)) as Htd.
      by rewrite E in Htd.
    + destruct (split_first p s) as [[a' b']|]; [|done].
      intros [= <- <-]. by rewrite (IH a' b').
Qed.

Lemma occurs_split_first (p s : jstr) :
  occurs p s → is_Some (split_first p s).
Proof.
  intros (a & b & ->). induction a as [|c a IH]; rewrite split_first_unfold.
  - cbn [app]. rewrite bool_decide_eq_true_2; [done|].
    by rewrite take_app_length.
  - case_bool_decide; [done|]. cbn [app]. by destruct IH as [[] ->].
Qed.

Lemma split_first_None (p s : jstr) :
  split_first p s = None ↔ ¬ occurs p s.
Proof.
  split.
  - intros E [x Hx]%occurs_split_first. congruence.
  - intros Hn. destruct (split_first p s) as [[a b]|] eqn:E; [|done].
    destruct Hn. exists a, b. by apply split_first_Some.
Qed.

(** the first match of a pattern whose first character is not repeated in
    it is where the pattern stands, when it does not occur before *)
Lemma split_first_at (c : char) (k a b : jstr) :
  c ∉ k → ¬ occurs (c :: k) a →
  split_first (c :: k) (a ++ (c :: k) ++ b) = Some (a, b).
Proof.
  intros Hc. induction a as [|d a IH]; intros Ha.
  - change ([] ++ (c :: k) ++ b) with ((c :: k) ++ b).
    rewrite split_first_unfold.
    rewrite bool_decide_eq_true_2 by (by rewrite take_app_length).
    by rewrite drop_app_length.
  - change ((d :: a) ++ (c :: k) ++ b) with (d :: (a ++ (c :: k) ++ b)).
    rewrite split_first_unfold, bool_decide_eq_false_2.
    + rewrite IH; [done|]. intros Ho. by apply Ha, occurs_cons.
    + intros E.
      pose proof (take_drop (length (c :: k)) (d :: (a ++ (c :: k) ++ b)))
        as E'.
      rewrite E in E'.
      change (d :: (a ++ (c :: k) ++ b)) with ((d :: a) ++ (c :: k) ++ b)
        in E'.
      apply app_eq_inv in E' as [(k' & E1 & E2)|(k' & E1 & E2)].
      * destruct k' as [|c' k'].
        -- rewrite app_nil_r in E1. apply Ha. rewrite E1. exists [], [].
           by rewrite app_nil_r.
        -- injection E1 as -> E1. cbn [app] in E2. injection E2 as <- E2.
           apply Hc. rewrite E1. apply elem_of_app. right. by left.
      * apply Ha. rewrite E1. by exists [], k'.
Qed.

Lemma replace_at (s : jstr) (c : char) (k a b r : jstr) :
  s = a ++ (c :: k) ++ b → c ∉ k → ¬ occurs (c :: k) a →
  replace s (c :: k) r = a ++ GetSubstitution (c :: k) a b r ++ b.
Proof. intros -> Hc Ha. unfold replace. by rewrite split_first_at. Qed.

Lemma replace_absent (s p r : jstr) : ¬ occurs p s → replace s p r = s.
Proof. intros Hs%split_first_None. unfold replace. by rewrite Hs. Qed.

(** ** Texts put together around characters foreign to a pattern *)

Lemma free_sep (p x : jstr) (c : char) (y : jstr) :
  c ∉ p → ¬ occurs p x → ¬ occurs p y → ¬ occurs p (x ++ c :: y).
Proof.
  intros Hc Hx Hy (a & b & E).
  apply app_eq_inv in E as [(k & E1 & E2)|(k & E1 & E2)].
  - symmetry in E2.
    apply app_eq_inv in E2 as [(k' & E3 & E4)|(k' & E3 & E4)].
    + apply Hx. rewrite E1, E3. by exists a, k'.
    + destruct k' as [|c' k'].
      * apply Hx. rewrite E1, E3, app_nil_r. exists a, [].
        by rewrite app_nil_r.
      * injection E4 as -> _. apply Hc. rewrite E3. apply elem_of_app.
        right. by left.
  - destruct k as [|c' k].
    + cbn [app] in E2. destruct p as [|c' p].
      * apply Hy, occurs_nil.
      * injection E2 as -> _. apply Hc. by left.
    + injection E2 as _ ->. apply Hy. by exists k, b.
Qed.

Lemma static_ok_spec (p y : jstr) :
  static_ok p y = true →
  ¬ occurs p y
  ∧ (∃ c y', y = c :: y' ∧ c ∉ p)
  ∧ (∃ y' c, y = y' ++ [c] ∧ c ∉ p).
Proof.
  unfold static_ok. intros [[H1 H2]%andb_true_iff H3]%andb_true_iff.
  split; [|split].
  - apply split_first_None. by destruct (split_first p y).
  - destruct y as [|c y']; [done|]. exists c, y'. split; [done|].
    by apply bool_decide_eq_true in H1.
  - destruct (last y) as [c|] eqn:E; [|done].
    apply last_Some in E as [y' ->]. exists y', c. split; [done|].
    by apply bool_decide_eq_true in H2.
Qed.

Lemma free_nil (p y : jstr) : static_ok p y = true → ¬ occurs p [].
Proof.
  intros (Hy & _)%static_ok_spec (a & b & E).
  symmetry in E. apply app_eq_nil in E as [_ [-> _]%app_eq_nil].
  apply Hy, occurs_nil.
Qed.

Lemma free_static (p x y z : jstr) :
  static_ok p y = true → ¬ occurs p x → ¬ occurs p z →
  ¬ occurs p (x ++ y ++ z).
Proof.
  intros (Hy & (c & y1 & E1 & Hc) & (y2 & c' & E2 & Hc'))%static_ok_spec
         Hx Hz.
  assert (¬ occurs p (y ++ z)) as Hyz.
  { rewrite E2, <- app_assoc. apply free_sep; [done| |done].
    intros Ho. apply Hy. rewrite E2. by apply occurs_app_l. }
  rewrite E1 in Hyz |- *. cbn [app] in *. apply free_sep; [done|done|].
  intros Ho. by apply Hyz, occurs_cons.
Qed.

Lemma free_static_l (p y z : jstr) :
  static_ok p y = true → ¬ occurs p z → ¬ occurs p (y ++ z).
Proof.
  intros Hy Hz. apply (free_static p [] y z); [done| |done].
  by eapply free_nil.
Qed.

Lemma free_static_r (p x y : jstr) :
  static_ok p y = true → ¬ occurs p x → ¬ occurs p (x ++ y).
Proof.
  intros Hy Hx. rewrite <- (app_nil_r y). apply free_static; [done|done|].
  by eapply free_nil.
Qed.

Lemma quiet_spec (P : list jstr) (y p : jstr) :
  quiet P y = true → p ∈ P → static_ok p y = true.
Proof.
  unfold quiet. rewrite forallb_forall. intros Hq Hp. apply Hq.
  by apply list_elem_of_In.
Qed.

Lemma avoids_nil (P : list jstr) (y : jstr) : quiet P y = true → avoids P [].
Proof. intros Hq p Hp. eapply free_nil, quiet_spec; done. Qed.

Lemma avoids_static (P : list jstr) (x y z : jstr) :
  quiet P y = true → avoids P x → avoids P z → avoids P (x ++ y ++ z).
Proof.
  intros Hq Hx Hz p Hp. apply free_static; [by eapply quiet_spec|auto..].
Qed.

Lemma avoids_static_l (P : list jstr) (y z : jstr) :
  quiet P y = true → avoids P z → avoids P (y ++ z).
Proof.
  intros Hq Hz p Hp. apply free_static_l; [by eapply quiet_spec|auto].
Qed.

Lemma avoids_static_r (P : list jstr) (x y : jstr) :
  quiet P y = true → avoids P x → avoids P (x ++ y).
Proof.
  intros Hq Hx p Hp. apply free_static_r; [by eapply quiet_spec|auto].
Qed.

Lemma avoids_silent (P : list jstr) (y : jstr) :
  silent P y = true → avoids P y.
Proof.
  unfold silent. rewrite forallb_forall. intros Hs p Hp%list_elem_of_In.
  apply split_first_None. specialize (Hs p Hp).
  by destruct (split_first p y).
Qed.

Lemma avoids_join_with (P : list jstr) (sep : jstr) (l : list jstr) :
  quiet P sep = true → Forall (avoids P) l → avoids P (join_with sep l).
Proof.
  intros Hq. induction 1 as [|x l Hx Hl IH]; [by eapply avoids_nil|].
  destruct l as [|y l]; [done|].
  change (join_with sep (x :: y :: l)) with (x ++ sep ++ join_with sep (y :: l)).
  by apply avoids_static.
Qed.

Lemma avoids_joined_or (P : list jstr) (sep fallback : jstr) (l : list jstr) :
  quiet P sep = true → silent P fallback = true → Forall (avoids P) l →
  avoids P (joined_or sep fallback l).
Proof.
  intros Hq Hf Hl. unfold joined_or. case_bool_decide.
  - by apply avoids_silent.
  - by apply avoids_join_with.
Qed.

Lemma avoids_tokens (s : jstr) : avoids patterns s → avoids tokens s.
Proof. intros Hs p Hp. apply Hs, elem_of_app. by left. Qed.

(** ** The replacement text *)

(** what a replacement without the three patterns expands to begins as the
    replacement does, up to the first dollar sign *)
Lemma prefix_GetSubstitution (m a b p r : jstr) :
  dollar ∉ p →
  ¬ occurs (lit "$&") r → ¬ occurs [dollar; backtick] r →
  ¬ occurs [dollar; quote] r →
  p `prefix_of` GetSubstitution m a b r → p `prefix_of` r.
Proof.
  revert r. induction p as [|c p IH]; intros r Hp H1 H2 H3 Hpre.
  { apply prefix_nil. }
  apply not_elem_of_cons in Hp as [Hc Hp].
  destruct r as [|x r]; [done|]. cbn [GetSubstitution] in Hpre.
  case_bool_decide as Ex.
  - subst x. destruct r as [|d r].
    + destruct Hpre as (t & [= E _]). by destruct Hc.
    + repeat case_bool_decide; subst;
        try (by (destruct H1; (by exists [], r)));
        try (by (destruct H2; (by exists [], r)));
        try (by (destruct H3; (by exists [], r)));
        destruct Hpre as (t & [= E _]); by destruct Hc.
  - destruct Hpre as (t & [= <- E]). apply prefix_cons, IH; [done| | | |].
    + intros Ho. by apply H1, occurs_cons.
    + intros Ho. by apply H2, occurs_cons.
    + intros Ho. by apply H3, occurs_cons.
    + by exists t.
Qed.

(** and holds no text without dollar sign that the replacement did not
    hold *)
Lemma occurs_GetSubstitution (m a b p r : jstr) :
  dollar ∉ p →
  ¬ occurs (lit "$&") r → ¬ occurs [dollar; backtick] r →
  ¬ occurs [dollar; quote] r →
  occurs p (GetSubstitution m a b r) → occurs p r.
Proof.
  intros Hp. remember (length r) as n eqn:En.
  revert r En. induction n as [n IH] using lt_wf_ind.
  intros r -> H1 H2 H3 Ho.
  destruct p as [|c p]; [apply occurs_nil|].
  assert (c ≠ dollar) as Hc by (intros ->; apply Hp; by left).
  destruct r as [|x r]; [done|]. cbn [GetSubstitution] in Ho.
  assert (∀ t, ¬ occurs t (x :: r) → ¬ occurs t r) as Htail
    by (intros t Ht Hr; by apply Ht, occurs_cons).
  case_bool_decide as Ex.
  - subst x. destruct r as [|d r]; [done|].
    assert (∀ t, ¬ occurs t (dollar :: d :: r) → ¬ occurs t r) as Htail2
      by (intros t Ht Hr; by apply Ht, occurs_cons, occurs_cons).
    repeat case_bool_decide; subst;
      try (by (destruct H1; (by exists [], r)));
      try (by (destruct H2; (by exists [], r)));
      try (by (destruct H3; (by exists [], r))).
    + apply occurs_cons_inv in Ho as [(t & [= E _])|Ho]; [done|].
      apply occurs_cons, occurs_cons.
      apply (IH (length r)); cbn [length]; auto with lia.
    + apply occurs_cons_inv in Ho as [(t & [= E _])|Ho]; [done|].
      apply occurs_cons.
      apply (IH (length (d :: r))); cbn [length]; auto with lia.
  - apply occurs_cons_inv in Ho as [(t & [= <- E])|Ho].
    + apply prefix_occurs, prefix_cons.
      apply (prefix_GetSubstitution m a b); auto.
      * by apply not_elem_of_cons in Hp as [_ ?].
      * by exists t.
    + apply occurs_cons. apply (IH (length r)); cbn [length]; auto with lia.
Qed.

(** a replacement without the three patterns stands for itself, its pairs
    of dollar signs apart, whatever the match is *)
Lemma GetSubstitution_plain (m a b r : jstr) :
  ¬ occurs (lit "$&") r → ¬ occurs [dollar; backtick] r →
  ¬ occurs [dollar; quote] r →
  GetSubstitution m a b r = unescape r.
Proof.
  remember (length r) as n eqn:En.
  revert r En. induction n as [n IH] using lt_wf_ind.
  intros r -> H1 H2 H3.
  destruct r as [|x r]; [done|]. cbn [GetSubstitution unescape].
  assert (∀ t, ¬ occurs t (x :: r) → ¬ occurs t r) as Htail
    by (intros t Ht Hr; by apply Ht, occurs_cons).
  case_bool_decide as Ex.
  - subst x. destruct r as [|d r]; [done|].
    assert (∀ t, ¬ occurs t (dollar :: d :: r) → ¬ occurs t r) as Htail2
      by (intros t Ht Hr; by apply Ht, occurs_cons, occurs_cons).
    repeat case_bool_decide; subst; cbn [andb];
      try (by (destruct H1; (by exists [], r)));
      try (by (destruct H2; (by exists [], r)));
      try (by (destruct H3; (by exists [], r))).
    + f_equal. apply (IH (length r)); cbn [length]; auto with lia.
    + f_equal. apply (IH (length (d :: r))); cbn [length]; auto with lia.
  - cbn [andb].
    rewrite (IH (length r)) by (cbn [length]; auto with lia).
    by destruct r.
Qed.

Lemma unescape_no_dollar (r : jstr) : dollar ∉ r → unescape r = r.
Proof.
  induction r as [|c r IH]; [done|].
  intros [Hc Hr]%not_elem_of_cons. cbn [unescape].
  destruct r as [|d r]; [done|].
  rewrite bool_decide_eq_false_2 by done. cbn [andb]. by rewrite IH.
Qed.

(** ** Inert texts *)

Lemma has_token_occurs (key s : jstr) :
  has_token key s ↔ occurs (lbrace :: key ++ lit "}") s.
Proof.
  split; intros (a & b & ->); exists a, b; cbn [app];
    by rewrite <- ?app_assoc.
Qed.

Lemma avoids_tokens_spec (s : jstr) :
  avoids tokens s ↔ ∀ key, key ∈ placeholders → ¬ has_token key s.
Proof.
  split.
  - intros Hs key Hk Ht%has_token_occurs.
    unfold placeholders in Hk.
    repeat (apply elem_of_cons in Hk as [->|Hk]);
      [..|by apply elem_of_nil in Hk];
      (eapply Hs; [|exact Ht]); unfold tokens.
    + by left.
    + right. by left.
    + do 2 right. by left.
    + do 3 right. by left.
  - intros Hs p Hp Ho. unfold tokens in Hp.
    repeat (apply elem_of_cons in Hp as [->|Hp]);
      [..|by apply elem_of_nil in Hp].
    + apply (Hs (lit "student")); [by left|]. by apply has_token_occurs.
    + apply (Hs (lit "topic")); [right; by left|]. by apply has_token_occurs.
    + apply (Hs (lit "areas")); [do 2 right; by left|].
      by apply has_token_occurs.
    + apply (Hs (lit "recommendations")); [do 3 right; by left|].
      by apply has_token_occurs.
Qed.

Lemma inert_avoids (s : jstr) : inert s ↔ avoids patterns s.
Proof.
  unfold inert, patterns. split.
  - intros (Ht & H1 & H2 & H3) p [Hp|Hp]%elem_of_app.
    + by apply avoids_tokens_spec.
    + repeat (apply elem_of_cons in Hp as [->|Hp]);
        [done..|by apply elem_of_nil in Hp].
  - intros Hs. split; [|split; [|split]].
    + apply avoids_tokens_spec. intros p Hp. apply Hs, elem_of_app. by left.
    + apply Hs, elem_of_app. right. by left.
    + apply Hs, elem_of_app. right. right. by left.
    + apply Hs, elem_of_app. right. do 2 right. by left.
Qed.

(** what stands for an inert replacement is the replacement with its pairs
    of dollar signs read as one, and holds none of the four tokens *)
Lemma GetSubstitution_inert (m a b r : jstr) :
  inert r →
  GetSubstitution m a b r = unescape r ∧ avoids tokens (unescape r).
Proof.
  intros (Ht & H1 & H2 & H3).
  split; [by apply GetSubstitution_plain|].
  rewrite <- (GetSubstitution_plain [] [] [] r) by done.
  intros p Hp Ho.
  apply occurs_GetSubstitution in Ho; [|
    unfold tokens in Hp;
    repeat (apply elem_of_cons in Hp as [->|Hp]);
      [absent..|by apply elem_of_nil in Hp] |done..].
  by apply (proj2 (avoids_tokens_spec r) Ht p Hp).
Qed.

(** ** The templates filled in *)

(** a check on literals *)
Ltac static := vm_compute; reflexivity.

Ltac in_tokens :=
  unfold tokens;
  first [ by left | by right; left | by do 2 right; left
        | by do 3 right; left ].

Lemma Forall_inert_avoids (l : list jstr) :
  Forall inert l → Forall (avoids patterns) l.
Proof.
  intros Hl. eapply Forall_impl; [exact Hl|]. intros s. apply inert_avoids.
Qed.

Lemma inert_areas (ws : list jstr) :
  Forall inert ws →
  inert (joined_or (lit ", ") (lit "general concepts") ws).
Proof.
  intros Hws%Forall_inert_avoids.
  apply inert_avoids, avoids_joined_or; [static|static|done].
Qed.

Lemma inert_recommendations (ws ss : list jstr) :
  Forall inert ws → Forall inert ss →
  inert (match ws with
         | [] => lit "Continue building on current strengths"
         | _ :: _ =>
             lit "Focus on " ++ join_with (lit " and ") (take 2 ws)
             ++ lit " while leveraging strengths in "
             ++ joined_or (lit " and ") (lit "identified areas") ss
         end).
Proof.
  intros Hws%Forall_inert_avoids Hss%Forall_inert_avoids. apply inert_avoids.
  destruct ws as [|w ws]; [apply avoids_silent; static|].
  apply avoids_static_l; [static|]. apply avoids_static; [static| |].
  - apply avoids_join_with; [static|]. by apply Forall_take.
  - apply avoids_joined_or; [static|static|done].
Qed.

(** the three templates with inert values at the place of their tokens *)
Lemma render_excellent (n s a r : jstr) :
  inert n → inert s →
  replace
    (replace
       (replace (replace (getBaseTemplate excellent)
                         (lbrace :: lit "student}") n)
                (lbrace :: lit "topic}") s)
       (lbrace :: lit "areas}") a)
    (lbrace :: lit "recommendations}") r
  = lit "Outstanding work! " ++ unescape n
    ++ lit " has demonstrated exceptional understanding of " ++ unescape s
    ++ lit "."
  ∧ avoids tokens
      (lit "Outstanding work! " ++ unescape n
       ++ lit " has demonstrated exceptional understanding of " ++ unescape s
       ++ lit ".").
Proof.
  intros Hn Hs.
  assert (avoids tokens
            (lit "Outstanding work! " ++ unescape n
             ++ lit " has demonstrated exceptional understanding of "
             ++ unescape s ++ lit ".")) as Hfinal.
  { apply avoids_static_l; [static|].
    apply avoids_static; [static|by apply (GetSubstitution_inert [] [] [])|].
    apply avoids_static_r; [static|].
    by apply (GetSubstitution_inert [] [] []). }
  split; [|done].
  change (getBaseTemplate excellent)
    with (lit "Outstanding work! " ++ (lbrace :: lit "student}")
          ++ lit " has demonstrated exceptional understanding of "
          ++ (lbrace :: lit "topic}") ++ lit ".").
  rewrite (replace_at _ lbrace (lit "student}") (lit "Outstanding work! ")
             (lit " has demonstrated exceptional understanding of "
              ++ (lbrace :: lit "topic}") ++ lit ".") n);
    [|reflexivity|absent|apply split_first_None; static].
  destruct (GetSubstitution_inert (lbrace :: lit "student}")
              (lit "Outstanding work! ")
              (lit " has demonstrated exceptional understanding of "
               ++ (lbrace :: lit "topic}") ++ lit ".") n Hn) as [-> H1].
  rewrite (replace_at _ lbrace (lit "topic}")
             (lit "Outstanding work! " ++ unescape n
              ++ lit " has demonstrated exceptional understanding of ")
             (lit ".") s);
    [|by rewrite <- !app_assoc|absent|].
  2:{ apply free_static_l; [static|]. apply free_static_r; [static|].
      apply H1. in_tokens. }
  destruct (GetSubstitution_inert (lbrace :: lit "topic}")
              (lit "Outstanding work! " ++ unescape n
               ++ lit " has demonstrated exceptional understanding of ")
              (lit ".") s Hs) as [-> H2].
  rewrite <- !app_assoc.
  rewrite (replace_absent _ (lbrace :: lit "areas}"))
    by (apply Hfinal; in_tokens).
  by rewrite (replace_absent _ (lbrace :: lit "recommendations}"))
    by (apply Hfinal; in_tokens).
Qed.

Lemma render_good (n s a r : jstr) :
  inert n → inert s → inert a →
  replace
    (replace
       (replace (replace (getBaseTemplate good)
                         (lbrace :: lit "student}") n)
                (lbrace :: lit "topic}") s)
       (lbrace :: lit "areas}") a)
    (lbrace :: lit "recommendations}") r
  = lit "Good progress! " ++ unescape n ++ lit " shows solid grasp of "
    ++ unescape s ++ lit " with room for improvement in " ++ unescape a
    ++ lit "."
  ∧ avoids tokens
      (lit "Good progress! " ++ unescape n ++ lit " shows solid grasp of "
       ++ unescape s ++ lit " with room for improvement in " ++ unescape a
       ++ lit ".").
Proof.
  intros Hn Hs Ha.
  pose proof (proj2 (GetSubstitution_inert [] [] [] n Hn)) as H1.
  pose proof (proj2 (GetSubstitution_inert [] [] [] s Hs)) as H2.
  pose proof (proj2 (GetSubstitution_inert [] [] [] a Ha)) as H3.
  assert (avoids tokens
            (lit "Good progress! " ++ unescape n
             ++ lit " shows solid grasp of " ++ unescape s
             ++ lit " with room for improvement in " ++ unescape a
             ++ lit ".")) as Hfinal.
  { apply avoids_static_l; [static|].
    apply avoids_static; [static|done|].
    apply avoids_static; [static|done|]. by apply avoids_static_r; [static|]. }
  split; [|done].
  change (getBaseTemplate good)
    with (lit "Good progress! " ++ (lbrace :: lit "student}")
          ++ lit " shows solid grasp of " ++ (lbrace :: lit "topic}")
          ++ lit " with room for improvement in " ++ (lbrace :: lit "areas}")
          ++ lit ".").
  rewrite (replace_at _ lbrace (lit "student}") (lit "Good progress! ")
             (lit " shows solid grasp of " ++ (lbrace :: lit "topic}")
              ++ lit " with room for improvement in "
              ++ (lbrace :: lit "areas}") ++ lit ".") n);
    [|reflexivity|absent|apply split_first_None; static].
  rewrite (proj1 (GetSubstitution_inert _ _ _ n Hn)).
  rewrite (replace_at _ lbrace (lit "topic}")
             (lit "Good progress! " ++ unescape n
              ++ lit " shows solid grasp of ")
             (lit " with room for improvement in "
              ++ (lbrace :: lit "areas}") ++ lit ".") s);
    [|by rewrite <- !app_assoc|absent|].
  2:{ apply free_static_l; [static|]. apply free_static_r; [static|].
      apply H1. in_tokens. }
  rewrite (proj1 (GetSubstitution_inert _ _ _ s Hs)).
  rewrite (replace_at _ lbrace (lit "areas}")
             ((lit "Good progress! " ++ unescape n
               ++ lit " shows solid grasp of ")
              ++ unescape s ++ lit " with room for improvement in ")
             (lit ".") a);
    [|by rewrite <- !app_assoc|absent|].
  2:{ rewrite <- !app_assoc. apply free_static_l; [static|].
      apply free_static; [static|apply H1; in_tokens|].
      apply free_static_r; [static|]. apply H2. in_tokens. }
  rewrite (proj1 (GetSubstitution_inert _ _ _ a Ha)).
  rewrite <- !app_assoc.
  by rewrite (replace_absent _ (lbrace :: lit "recommendations}"))
    by (apply Hfinal; in_tokens).
Qed.

Lemma render_needsImprovement (n s a r : jstr) :
  inert n → inert s → inert r →
  replace
    (replace
       (replace (replace (getBaseTemplate needsImprovement)
                         (lbrace :: lit "student}") n)
                (lbrace :: lit "topic}") s)
       (lbrace :: lit "areas}") a)
    (lbrace :: lit "recommendations}") r
  = unescape n ++ lit " needs additional support in " ++ unescape s
    ++ lit ". Consider focusing on " ++ unescape r ++ lit "."
  ∧ avoids tokens
      (unescape n ++ lit " needs additional support in " ++ unescape s
       ++ lit ". Consider focusing on " ++ unescape r ++ lit ".").
Proof.
  intros Hn Hs Hr.
  pose proof (proj2 (GetSubstitution_inert [] [] [] n Hn)) as H1.
  pose proof (proj2 (GetSubstitution_inert [] [] [] s Hs)) as H2.
  pose proof (proj2 (GetSubstitution_inert [] [] [] r Hr)) as H4.
  split.
  2:{ apply avoids_static; [static|done|].
      apply avoids_static; [static|done|].
      by apply avoids_static_r; [static|]. }
  change (getBaseTemplate needsImprovement)
    with ([] ++ (lbrace :: lit "student}")
          ++ lit " needs additional support in " ++ (lbrace :: lit "topic}")
          ++ lit ". Consider focusing on "
          ++ (lbrace :: lit "recommendations}") ++ lit ".").
  rewrite (replace_at _ lbrace (lit "student}") []
             (lit " needs additional support in " ++ (lbrace :: lit "topic}")
              ++ lit ". Consider focusing on "
              ++ (lbrace :: lit "recommendations}") ++ lit ".") n);
    [|reflexivity|absent|apply split_first_None; static].
  rewrite (proj1 (GetSubstitution_inert _ _ _ n Hn)), app_nil_l.
  rewrite (replace_at _ lbrace (lit "topic}")
             (unescape n ++ lit " needs additional support in ")
             (lit ". Consider focusing on "
              ++ (lbrace :: lit "recommendations}") ++ lit ".") s);
    [|by rewrite <- !app_assoc|absent|].
  2:{ apply free_static_r; [static|]. apply H1. in_tokens. }
  rewrite (proj1 (GetSubstitution_inert _ _ _ s Hs)).
  rewrite (replace_absent _ (lbrace :: lit "areas}")).
  2:{ rewrite <- !app_assoc. apply free_static; [static|apply H1; in_tokens|].
      apply (free_static_r _ (unescape s)
               (lit ". Consider focusing on "
                ++ (lbrace :: lit "recommendations}") ++ lit "."));
        [static|]. apply H2. in_tokens. }
  rewrite (replace_at _ lbrace (lit "recommendations}")
             ((unescape n ++ lit " needs additional support in ")
              ++ unescape s ++ lit ". Consider focusing on ")
             (lit ".") r);
    [|by rewrite <- !app_assoc|absent|].
  2:{ rewrite <- !app_assoc. apply free_static; [static|apply H1; in_tokens|].
      apply free_static_r; [static|]. apply H2. in_tokens. }
  rewrite (proj1 (GetSubstitution_inert _ _ _ r Hr)).
  by rewrite <- !app_assoc.
Qed.

(** C2, as amended: on a valid record whose weakAreas and strengths are
    absent or arrays of text labels, whose learning style can be turned
    into a string, and whose name, subject, weak areas and strengths are
    inert (none holds one of the four tokens or one of the patterns [$&],
    [$`] and [$']; braces and dollar signs are allowed otherwise),
    [generateFeedback] returns a feedback text in which none of the four
    tokens is left. *)
Theorem feedback_has_no_placeholder
    (now : jstr) (sd : object) (criteria : value) (ws ss : list jstr)
    (n s : jstr) :
  valid sd →
  labels (get sd (lit "weakAreas")) ws →
  labels (get sd (lit "strengths")) ss →
  (∃ style, ToString (get sd (lit "learningStyle")) = Returns style) →
  get sd (lit "name") = VStr n →
  get sd (lit "subject") = VStr s →
  inert n → inert s → Forall inert ws → Forall inert ss →
  ∃ r, generateFeedback now sd criteria = Returns r
       ∧ ∀ key, key ∈ placeholders → ¬ has_token key (feedback r).
Proof.
  intros Hv Hw Hs Hstyle Hn Hsub In Is Iw Iss.
  destruct (valid_conversions sd Hv) as (_ & _ & _ & _ & Hscore).
  destruct (generateFeedback_returns now sd criteria ws ss n s)
    as (level & recs & r & _ & Hin & Hrecs & Hr & _ & Hf);
    [by rewrite Hn|by rewrite Hsub|done..|].
  pose proof (generateRecommendations_labels _ _ _ _ Hw Hs) as Hrecs'.
  assert (recs
          = match ws with
            | [] => lit "Continue building on current strengths"
            | _ :: _ =>
                lit "Focus on " ++ join_with (lit " and ") (take 2 ws)
                ++ lit " while leveraging strengths in "
                ++ joined_or (lit " and ") (lit "identified areas") ss
            end) as -> by congruence.
  pose proof (inert_areas ws Iw) as Ia.
  pose proof (inert_recommendations ws ss Iw Iss) as Ir.
  exists r. split; [done|]. apply avoids_tokens_spec. rewrite Hf.
  repeat (apply elem_of_cons in Hin as [->|Hin]);
    [| | |by apply elem_of_nil in Hin].
  - destruct (render_excellent n s
                (joined_or (lit ", ") (lit "general concepts") ws)
                (match ws with
                 | [] => lit "Continue building on current strengths"
                 | _ :: _ =>
                     lit "Focus on " ++ join_with (lit " and ") (take 2 ws)
                     ++ lit " while leveraging strengths in "
                     ++ joined_or (lit " and ") (lit "identified areas") ss
                 end) In Is) as [-> ?]. done.
  - destruct (render_good n s
                (joined_or (lit ", ") (lit "general concepts") ws)
                (match ws with
                 | [] => lit "Continue building on current strengths"
                 | _ :: _ =>
                     lit "Focus on " ++ join_with (lit " and ") (take 2 ws)
                     ++ lit " while leveraging strengths in "
                     ++ joined_or (lit " and ") (lit "identified areas") ss
                 end) In Is Ia) as [-> ?]. done.
  - destruct (render_needsImprovement n s
                (joined_or (lit ", ") (lit "general concepts") ws)
                _ In Is Ir) as [-> ?]. done.
Qed.

End Properties.

(** ** The sanitizer *)

Section Sanitizer.

Lemma trim_start_split (s : jstr) :
  ∃ a, s = a ++ trim_start s
       ∧ Forall (λ c, is_space c = true) a
       ∧ ∀ c, head (trim_start s) = Some c → is_space c = false.
Proof.
  induction s as [|c s (a & E & Ha & Hh)].
  - exists []. by repeat split.
  - cbn [trim_start]. destruct (is_space c) eqn:Ec.
    + exists (c :: a). split; [by rewrite E at 1|]. split; [by constructor|done].
    + exists []. split; [done|]. split; [done|]. by intros ? [= <-].
Qed.

(** [trim] removes a run of white space at each end and nothing else, and
    what is left neither starts nor ends with white space *)
Lemma trim_split (s : jstr) :
  ∃ a b, s = a ++ trim s ++ b
         ∧ Forall (λ c, is_space c = true) a
         ∧ Forall (λ c, is_space c = true) b
         ∧ (∀ c, head (trim s) = Some c → is_space c = false)
         ∧ (∀ c, last (trim s) = Some c → is_space c = false).
Proof.
  unfold trim.
  destruct (trim_start_split s) as (a & Ea & Ha & Hh).
  destruct (trim_start_split (reverse (trim_start s))) as (b & Eb & Hb & Hl).
  assert (trim_start s
          = reverse (trim_start (reverse (trim_start s))) ++ reverse b) as Et
    by (rewrite <- reverse_app, <- Eb; by rewrite reverse_involutive).
  exists a, (reverse b). split; [by rewrite <- Et|].
  split; [done|]. split; [by apply Forall_reverse|]. split.
  - intros c Hc. apply Hh. rewrite Et.
    by destruct (reverse (trim_start (reverse (trim_start s)))).
  - intros c Hc. rewrite last_reverse in Hc. by apply Hl.
Qed.

Lemma strip_angle_filter (s : jstr) :
  strip_angle s = filter (λ c, c ≠ lt_sign ∧ c ≠ gt_sign) s.
Proof.
  induction s as [|c s IH]; [done|]. cbn [strip_angle].
  rewrite filter_cons, IH.
  destruct (decide (c = lt_sign)) as [->|Hl]; [by rewrite decide_False by (by intros [? ?])|].
  destruct (decide (c = gt_sign)) as [->|Hg]; [by rewrite decide_False by (by intros [? ?])|].
  rewrite !bool_decide_eq_false_2 by done.
  by rewrite decide_True.
Qed.

Lemma get_sanitized_copy (o : object) (k : jstr) :
  get (sanitized_copy o) k = sanitize_value (get o k).
Proof.
  induction o as [|[k' v] o IH]; [done|].
  cbn [sanitized_copy fmap list_fmap prod_map get fst snd id] in *.
  by destruct (jstr_eqb k' k).
Qed.

Lemma get_middle (p q : object) (k : jstr) (v : value) :
  k ∉ keys p → get (p ++ (k, v) :: q) k = v.
Proof.
  induction p as [|[k' v'] p IH]; intros Hk.
  - cbn [app get]. unfold jstr_eqb. by rewrite bool_decide_eq_true_2.
  - apply not_elem_of_cons in Hk as [Hne Hk]. cbn [app get].
    unfold jstr_eqb. rewrite bool_decide_eq_false_2 by done. by apply IH.
Qed.

Lemma set_own_fresh (o : object) (k : jstr) (v : value) :
  k ∉ keys o → set_own o k v = o ++ [(k, v)].
Proof.
  induction o as [|[k' v'] o IH]; intros Hk; [done|].
  apply not_elem_of_cons in Hk as [Hne Hk]. cbn [set_own app].
  unfold jstr_eqb. rewrite bool_decide_eq_false_2 by done. by rewrite IH.
Qed.

(** an assignment under any key but [__proto__] adds an own field *)
Lemma obj_set_plain_fresh (o : object) (k : jstr) (v : value) :
  k ≠ proto_key → k ∉ keys o → obj_set (plain o) k v = plain (o ++ [(k, v)]).
Proof.
  intros Hp Hk. unfold obj_set, jstr_eqb.
  rewrite bool_decide_eq_false_2 by done. cbn [andb plain own prototype].
  by rewrite set_own_fresh.
Qed.

Lemma keys_sanitized_copy (o : object) : keys (sanitized_copy o) = keys o.
Proof.
  unfold keys, sanitized_copy. rewrite <- list_fmap_compose.
  apply list_fmap_ext. by intros ? [].
Qed.

Lemma copy_field_next (h : heap) (data sanitized : loc) (s : stored)
    (p q : object) (k : jstr) (v : value) :
  h !! data = Some s → own s = p ++ (k, v) :: q → sanitized ≠ data →
  k ≠ proto_key → k ∉ keys p →
  copy_field data sanitized (<[sanitized := plain (sanitized_copy p)]> h) k
  = <[sanitized := plain (sanitized_copy (p ++ [(k, v)]))]> h.
Proof.
  intros Hd Ho Hne Hp Hk. unfold copy_field.
  assert (read (<[sanitized := plain (sanitized_copy p)]> h) data k = v) as ->.
  { unfold read. rewrite lookup_insert_ne, Hd, Ho by done. by apply get_middle. }
  assert (∀ w, write (<[sanitized := plain (sanitized_copy p)]> h) sanitized k w
               = <[sanitized := plain (sanitized_copy p ++ [(k, w)])]> h)
    as Hwrite.
  { intros w. unfold write. rewrite alter_insert_eq.
    rewrite obj_set_plain_fresh; [done|done|]. by rewrite keys_sanitized_copy. }
  assert (∀ w, sanitized_copy p ++ [(k, sanitize_value w)]
               = sanitized_copy (p ++ [(k, w)])) as Hcopy
    by (intros w; unfold sanitized_copy; by rewrite fmap_app).
  rewrite <- Hcopy. destruct v; by rewrite Hwrite.
Qed.

(** the loop of [sanitizeInput]: once the fields [p] are copied, copying
    the remaining fields [q] completes the copy of [p ++ q] *)
Lemma sanitize_loop (h : heap) (data sanitized : loc) (s : stored)
    (p q : object) :
  h !! data = Some s → own s = p ++ q → sanitized ≠ data →
  NoDup (keys (p ++ q)) → proto_key ∉ keys q →
  foldl (copy_field data sanitized)
        (<[sanitized := plain (sanitized_copy p)]> h) (keys q)
  = <[sanitized := plain (sanitized_copy (p ++ q))]> h.
Proof.
  revert p. induction q as [|[k v] q IH]; intros p Hd Ho Hne Hnd Hp.
  - by rewrite app_nil_r.
  - change (keys ((k, v) :: q)) with (k :: keys q) in *. cbn [foldl].
    apply not_elem_of_cons in Hp as [Hkp Hp].
    assert (k ∉ keys p) as Hk.
    { unfold keys in Hnd. rewrite fmap_app in Hnd.
      apply NoDup_app in Hnd as (_ & Hnd & _).
      intros Hin. apply (Hnd k Hin). by left. }
    rewrite (copy_field_next h data sanitized s p q k v) by done.
    rewrite IH; rewrite <- ?app_assoc; done.
Qed.

(** on a record that does not own the key [__proto__], the sanitizer
    returns the copy field by field *)
Lemma sanitizeInput_plain (h : heap) (data : loc) (s : stored) :
  h !! data = Some s → NoDup (keys (own s)) → proto_key ∉ keys (own s) →
  sanitizeInput h data
  = Returns (<[fresh (dom h) := plain (sanitized_copy (own s))]> h,
             fresh (dom h))
    ∧ h !! fresh (dom h) = None
    ∧ fresh (dom h) ≠ data.
Proof.
  intros Hd Hnd Hp.
  assert (h !! fresh (dom h) = None) as Hfresh
    by apply not_elem_of_dom, is_fresh.
  assert (fresh (dom h) ≠ data) as Hne by (intros E; by rewrite E, Hd in Hfresh).
  split; [|done].
  unfold sanitizeInput. rewrite Hd.
  change (<[fresh (dom h) := plain []]> h)
    with (<[fresh (dom h) := plain (sanitized_copy [])]> h).
  by rewrite (sanitize_loop h data (fresh (dom h)) s [] (own s)).
Qed.

(** C9 fails on records that own the key [__proto__], which is what
    [JSON.parse] builds from a body with that member.  On [proto_text] the
    object returned has no field of that name, where the claim wants the
    string trimmed and stripped; on [proto_object] the object of the input
    is not copied as a field but becomes the prototype of the object
    returned, which then shows a learning style with its angle brackets.
    Both records are left as they were. *)
Theorem sanitizeInput_loses_proto :
  (∃ h' sanitized,
     sanitizeInput {[ 1%positive := plain proto_text ]} 1%positive
     = Returns (h', sanitized)
     ∧ h' !! sanitized
       = Some (plain [ field "name" (text "Ann");
                       field "performance" (VNum (Fin 75));
                       field "subject" (text "Algebra") ])
     ∧ h' !! sanitized ≠ Some (plain (sanitized_copy proto_text))
     ∧ get (sanitized_copy proto_text) proto_key = text "bx/b"
     ∧ h' !! 1%positive = Some (plain proto_text))
  ∧ (∃ h' sanitized s,
       sanitizeInput {[ 1%positive := plain proto_object ]} 1%positive
       = Returns (h', sanitized)
       ∧ h' !! sanitized = Some s
       ∧ keys (own s) = [lit "name"; lit "performance"; lit "subject"]
       ∧ prototype s = Some (VObj [ field "learningStyle" (text "<script>") ])
       ∧ get (fields s) (lit "learningStyle") = text "<script>"
       ∧ get proto_object (lit "learningStyle") = VUndefined
       ∧ h' !! 1%positive = Some (plain proto_object)).
Proof.
  split.
  - eexists _, _. split; [vm_compute; reflexivity|].
    split; [vm_compute; reflexivity|].
    split; [intros E; vm_compute in E; discriminate E|].
    split; [vm_compute; reflexivity|]. vm_compute. reflexivity.
  - eexists _, _, _. split; [vm_compute; reflexivity|].
    split; [vm_compute; reflexivity|].
    split; [vm_compute; reflexivity|].
    split; [vm_compute; reflexivity|].
    split; [vm_compute; reflexivity|].
    split; [vm_compute; reflexivity|]. vm_compute. reflexivity.
Qed.

End Sanitizer.

(** ** The validators, check by check *)

Section Validators.
Context `{!Conversions}.

Lemma out_of_range_returns (v : value) (lo hi : Q) (bad : bool) :
  out_of_range v lo hi = Returns bad →
  ∃ n, ToNumber v = Returns n
       ∧ (bad = false ↔ in_range n lo hi).
Proof.
  intros Hb. unfold out_of_range in Hb.
  destruct (ToNumber v) as [n|e]; [|done].
  cbn [mbind outcome_bind] in Hb. injection Hb as <-.
  exists n. split; [done|].
  pose proof (out_of_range_false (VNum n) lo hi) as Hf.
  unfold out_of_range in Hf. cbn [ToNumber mbind outcome_bind] in Hf.
  split.
  - intros E. rewrite E in Hf.
    by destruct (proj1 Hf eq_refl) as (n' & [= <-] & Hr).
  - intros Hr. assert (∃ n0, Returns n = Returns n0 ∧ in_range n0 lo hi) as Hex
      by (by exists n).
    apply Hf in Hex. congruence.
Qed.

Lemma range_check_returns (sd : object) (bad : bool) :
  range_check sd = Returns bad →
  (bad = true ↔
     get sd (lit "performance") ≠ VUndefined
     ∧ ∃ n, ToNumber (get sd (lit "performance")) = Returns n
            ∧ ¬ in_range n 0 100).
Proof.
  unfold range_check.
  destruct (get sd (lit "performance")) as [| | | | | |] eqn:Ep;
    cbn [is_undefined negb].
  { intros [= <-]. split; [done|]. by intros [? _]. }
  all: intros (num & Hn & Hr)%out_of_range_returns; split.
  all: try (intros ->; split; [done|]; exists num; split; [done|];
            intros Hin; by apply Hr in Hin).
  all: intros (_ & num' & Hn' & Hr'); destruct bad; [done|];
    destruct Hr'; rewrite Hn in Hn'; injection Hn' as <-; by apply Hr.
Qed.

Lemma elem_of_if_singleton {A} (b : bool) (x m : A) :
  m ∈ (if b then [x] else []) ↔ m = x ∧ b = true.
Proof.
  destruct b.
  - rewrite list_elem_of_singleton. by split; [|intros []].
  - split; [by intros ?%elem_of_nil|]. by intros [_ ?].
Qed.

Lemma validateStudentData_returns (sd : object) (v : ValidationResult) :
  validateStudentData sd = Returns v →
  ∃ bad, range_check sd = Returns bad
         ∧ isValid v = bool_decide (length (student_errors sd bad) = 0)
         ∧ errors v = student_errors sd bad.
Proof.
  rewrite validateStudentData_eq.
  destruct (range_check sd) as [bad|e]; [|done].
  intros [= <-]. by exists bad.
Qed.

(** X1: when the student validator returns, its error list holds a
    message exactly when the check of that message is violated: a required
    field is falsy; performance is present and its number is not a finite
    value of [0,100]; name or subject is truthy and not a string;
    weakAreas or strengths is truthy and not an array. *)
Theorem validateStudentData_reports
    (sd : object) (v : ValidationResult) (m : jstr) :
  validateStudentData sd = Returns v →
  m ∈ errors v ↔
    (m = lit "name is required" ∧ truthy (get sd (lit "name")) = false)
    ∨ (m = lit "performance is required"
       ∧ truthy (get sd (lit "performance")) = false)
    ∨ (m = lit "subject is required" ∧ truthy (get sd (lit "subject")) = false)
    ∨ (m = lit "Performance must be a number between 0 and 100"
       ∧ get sd (lit "performance") ≠ VUndefined
       ∧ ∃ n, ToNumber (get sd (lit "performance")) = Returns n
              ∧ ¬ in_range n 0 100)
    ∨ (m = lit "Name must be a string"
       ∧ truthy (get sd (lit "name")) = true
       ∧ is_string (get sd (lit "name")) = false)
    ∨ (m = lit "Subject must be a string"
       ∧ truthy (get sd (lit "subject")) = true
       ∧ is_string (get sd (lit "subject")) = false)
    ∨ (m = lit "Weak areas must be an array"
       ∧ truthy (get sd (lit "weakAreas")) = true
       ∧ is_array (get sd (lit "weakAreas")) = false)
    ∨ (m = lit "Strengths must be an array"
       ∧ truthy (get sd (lit "strengths")) = true
       ∧ is_array (get sd (lit "strengths")) = false).
Proof.
  intros (bad & Hbad%range_check_returns & _ & ->)%validateStudentData_returns.
  unfold student_errors.
  rewrite !elem_of_app, !elem_of_if_singleton.
  rewrite !andb_true_iff, !negb_true_iff, Hbad. tauto.
Qed.

(** X2: the student validator accepts a record exactly when name and
    subject are non-empty strings, performance is truthy and its number is
    a finite value of [0,100], and weakAreas and strengths are each falsy
    or an array; and it throws exactly when the performance cannot be
    turned into a number. *)
Theorem validateStudentData_valid_iff (sd : object) :
  (valid sd ↔
     (∃ n, get sd (lit "name") = VStr n ∧ n ≠ [])
     ∧ (∃ s, get sd (lit "subject") = VStr s ∧ s ≠ [])
     ∧ truthy (get sd (lit "performance")) = true
     ∧ (∃ n, ToNumber (get sd (lit "performance")) = Returns n
             ∧ in_range n 0 100)
     ∧ (truthy (get sd (lit "weakAreas")) = false
        ∨ is_array (get sd (lit "weakAreas")) = true)
     ∧ (truthy (get sd (lit "strengths")) = false
        ∨ is_array (get sd (lit "strengths")) = true))
  ∧ (validateStudentData sd = Throws TypeError
     ↔ ToNumber (get sd (lit "performance")) = Throws TypeError).
Proof.
  split; [apply valid_fields|].
  rewrite validateStudentData_eq. unfold range_check, out_of_range.
  destruct (get sd (lit "performance")) as [| | | | | |];
    cbn [is_undefined negb]; try done;
    by destruct (ToNumber _) as [n|[]].
Qed.

(** X3: the verdict reads five fields only: two records that agree on
    name, performance, subject, weakAreas and strengths get the same
    verdict, whatever else they hold. *)
Theorem validateStudentData_reads_five_fields (sd sd' : object) :
  (∀ k, k ∈ [lit "name"; lit "performance"; lit "subject";
             lit "weakAreas"; lit "strengths"] → get sd k = get sd' k) →
  validateStudentData sd = validateStudentData sd'.
Proof.
  intros Hk. rewrite !validateStudentData_eq.
  unfold range_check, student_errors.
  by rewrite !(Hk (lit "name")), !(Hk (lit "performance")),
    !(Hk (lit "subject")), !(Hk (lit "weakAreas")), !(Hk (lit "strengths"))
    by absent.
Qed.

Lemma validateCriteria_eq (criteria : value) :
  validateCriteria criteria
  = if negb (truthy criteria) || negb (typeof_object criteria)
    then Returns {| isValid := false;
                    errors := [lit "Criteria must be an object"] |}
    else bad ← weight_check criteria;
         Returns {| isValid :=
                      bool_decide (length (criteria_errors criteria bad) = 0);
                    errors := criteria_errors criteria bad |}.
Proof.
  unfold validateCriteria, weight_check, criteria_errors.
  destruct (negb (truthy criteria) || negb (typeof_object criteria)); [done|].
  destruct (negb (is_undefined (member criteria (lit "weight"))));
    [destruct (out_of_range _ 0 1) as [bad|e]; [|done]|];
    cbn [mbind outcome_bind]; cbv zeta;
    generalize (truthy (member criteria (lit "rubric"))
                && negb (typeof_object (member criteria (lit "rubric"))));
    intros b1.
  - by destruct b1, bad.
  - by destruct b1.
Qed.

Lemma weight_check_returns (criteria : value) (bad : bool) :
  weight_check criteria = Returns bad →
  (bad = true ↔
     member criteria (lit "weight") ≠ VUndefined
     ∧ ∃ n, ToNumber (member criteria (lit "weight")) = Returns n
            ∧ ¬ in_range n 0 1).
Proof.
  unfold weight_check.
  destruct (member criteria (lit "weight")) as [| | | | | |] eqn:Ep;
    cbn [is_undefined negb].
  { intros [= <-]. split; [done|]. by intros [? _]. }
  all: intros (num & Hn & Hr)%out_of_range_returns; split.
  all: try (intros ->; split; [done|]; exists num; split; [done|];
            intros Hin; by apply Hr in Hin).
  all: intros (_ & num' & Hn' & Hr'); destruct bad; [done|];
    destruct Hr'; rewrite Hn in Hn'; injection Hn' as <-; by apply Hr.
Qed.

(** X4: anything that is not an object or an array is refused with the
    single message "Criteria must be an object", its rubric and weight not
    being looked at; on an object or an array the validator, when it
    returns, reports "Rubric must be an object" exactly when rubric is
    truthy and neither an object nor an array, and "Weight must be a number
    between 0 and 1" exactly when weight is present and its number is not
    a finite value of [0,1]. *)
Theorem validateCriteria_reports
    (criteria : value) (v : ValidationResult) (m : jstr) :
  (is_array criteria = false → (∀ o, criteria ≠ VObj o) →
   validateCriteria criteria
   = Returns {| isValid := false;
                errors := [lit "Criteria must be an object"] |})
  ∧ (is_array criteria = true ∨ (∃ o, criteria = VObj o) →
     validateCriteria criteria = Returns v →
     m ∈ errors v ↔
       (m = lit "Rubric must be an object"
        ∧ truthy (member criteria (lit "rubric")) = true
        ∧ typeof_object (member criteria (lit "rubric")) = false)
       ∨ (m = lit "Weight must be a number between 0 and 1"
          ∧ member criteria (lit "weight") ≠ VUndefined
          ∧ ∃ n, ToNumber (member criteria (lit "weight")) = Returns n
                 ∧ ¬ in_range n 0 1)).
Proof.
  split.
  - intros Ha Ho. rewrite validateCriteria_eq.
    assert (negb (truthy criteria) || negb (typeof_object criteria) = true)
      as ->; [|done].
    destruct criteria as [| | | | |l|o];
      cbn [typeof_object negb]; rewrite ?orb_true_r; try done.
    by destruct (Ho o).
  - intros Hc. rewrite validateCriteria_eq.
    assert (negb (truthy criteria) || negb (typeof_object criteria) = false)
      as -> by (destruct Hc as [?|[o ->]]; [by destruct criteria|done]).
    destruct (weight_check criteria) as [bad|e] eqn:Eb; [|done].
    intros [= <-]. cbn [errors]. unfold criteria_errors.
    apply weight_check_returns in Eb.
    rewrite elem_of_app, !elem_of_if_singleton.
    rewrite !andb_true_iff, !negb_true_iff, Eb. tauto.
Qed.

(** X5: criteria are accepted exactly when they are an array, or an object
    whose rubric is falsy or itself an object or array and whose weight is
    absent or a number of [0,1].  What the rubric holds is never examined,
    and an array, the empty one included, always passes. *)
Theorem validateCriteria_valid_iff (criteria : value) :
  (∃ v, validateCriteria criteria = Returns v ∧ isValid v = true) ↔
    is_array criteria = true
    ∨ ∃ o, criteria = VObj o
           ∧ (truthy (get o (lit "rubric")) = false
              ∨ typeof_object (get o (lit "rubric")) = true)
           ∧ (get o (lit "weight") = VUndefined
              ∨ ∃ n, ToNumber (get o (lit "weight")) = Returns n
                     ∧ in_range n 0 1).
Proof.
  rewrite validateCriteria_eq.
  destruct criteria as [| | | | |l|o]; cbn [truthy typeof_object negb orb];
    rewrite ?orb_true_r.
  1-5: split; [by intros (v & [= <-] & ?)|]; by intros [?|(o & ? & _)].
  - split; [by left|]. intros _. by eexists.
  - unfold weight_check, criteria_errors. cbn [member]. split.
    + intros (v & Hv & Hvalid). right. exists o. split; [done|].
      destruct (get o (lit "weight")) as [| | | | | |] eqn:Ew;
        cbn [is_undefined negb] in Hv.
      { injection Hv as <-. cbn [isValid] in Hvalid.
        apply bool_decide_eq_true, length_zero_iff_nil in Hvalid.
        apply app_eq_nil in Hvalid as [Hr%if_singleton_nil _].
        split; [|by left].
        destruct (truthy (get o (lit "rubric"))); [|by left].
        right. by destruct (typeof_object (get o (lit "rubric"))). }
      all: destruct (out_of_range _ 0 1) as [bad|e] eqn:Eb; [|done];
        injection Hv as <-; cbn [isValid] in Hvalid;
        apply bool_decide_eq_true, length_zero_iff_nil in Hvalid;
        apply app_eq_nil in Hvalid as [Hr%if_singleton_nil Hb%if_singleton_nil];
        subst bad; apply out_of_range_false in Eb; (split; [|by right]);
        (destruct (truthy (get o (lit "rubric"))); [|by left]);
        right; by destruct (typeof_object (get o (lit "rubric"))).
    + intros [?|(o' & [= <-] & Hr & Hw)]; [done|].
      assert (truthy (get o (lit "rubric"))
              && negb (typeof_object (get o (lit "rubric"))) = false) as ->
        by (destruct Hr as [-> | ->]; by rewrite ?andb_false_r).
      destruct Hw as [-> |Hw]; [by eexists|].
      apply out_of_range_false in Hw.
      destruct (negb (is_undefined (get o (lit "weight")))); [|by eexists].
      rewrite Hw. by eexists.
Qed.

End Validators.

(** ** The engine beyond the records of the data model *)

Section EngineEdges.
Context `{!Conversions}.

Lemma opt_join_throws (v : value) (sep : jstr) :
  nullish v = false → is_array v = false → opt_join v sep = Throws TypeError.
Proof. by destruct v. Qed.

Lemma join_outcome (sep : jstr) (l : list value) :
  (∃ t, join sep l = Returns t) ∨ join sep l = Throws TypeError.
Proof. destruct (join sep l) as [t|[]]; [left; by exists t|by right]. Qed.

(** X6: on a record whose weakAreas and strengths are absent or arrays of
    text labels, the detailed recommendations are, in this order, one line
    listing all the weak areas when there are some, one line listing the
    strengths when there are some, and one line naming the learning style
    when it is truthy; at most three lines, and none when the three are
    missing. *)
Theorem generateDetailedRecommendations_lines
    (sd : object) (ws ss : list jstr) (style : jstr) :
  labels (get sd (lit "weakAreas")) ws →
  labels (get sd (lit "strengths")) ss →
  ToString (get sd (lit "learningStyle")) = Returns style →
  ∃ lines,
    generateDetailedRecommendations sd = Returns lines
    ∧ lines
      = (if bool_decide (ws = []) then []
         else [lit "Target improvement areas: " ++ join_with (lit ", ") ws])
        ++ (if bool_decide (ss = []) then []
            else [lit "Build upon strengths: " ++ join_with (lit ", ") ss])
        ++ (if truthy (get sd (lit "learningStyle"))
            then [lit "Adapt teaching methods for " ++ style
                  ++ lit " learning style"]
            else [])
    ∧ length lines ≤ 3
    ∧ (ws = [] → ss = [] → truthy (get sd (lit "learningStyle")) = false →
       lines = []).
Proof.
  intros Hw Hs Hl. eexists.
  split; [by apply generateDetailedRecommendations_labels|].
  destruct ws as [|w ws], ss as [|s ss],
    (truthy (get sd (lit "learningStyle")));
    cbn [bool_decide decide_rel app length]; repeat split; (done || lia).
Qed.

(** X7: a record that the validator accepts can still make the engine
    fail: with a weakAreas that is falsy without being absent ([false], [0]
    or the empty string), which the validator lets through, and with an
    array of weak areas one of which cannot be turned into a string,
    [generateFeedback] throws a TypeError. *)
Theorem generateFeedback_type_errors
    (now : jstr) (sd : object) (criteria : value) :
  valid sd →
  (nullish (get sd (lit "weakAreas")) = false →
   is_array (get sd (lit "weakAreas")) = false →
   truthy (get sd (lit "weakAreas")) = false
   ∧ generateFeedback now sd criteria = Throws TypeError)
  ∧ (∀ l, get sd (lit "weakAreas") = VArr l →
          texts l = Throws TypeError →
          generateFeedback now sd criteria = Throws TypeError).
Proof.
  intros Hv.
  destruct (valid_conversions sd Hv) as (_ & _ & _ & _ & score & Hscore).
  destruct (assess_is_level _ _ Hscore) as (level & Hlevel & _).
  apply valid_fields in Hv as (_ & _ & _ & _ & Hw & _).
  split.
  - intros Hn Ha. split; [destruct Hw; congruence|].
    unfold generateFeedback, bindings. rewrite Hlevel.
    by rewrite (opt_join_throws _ _ Hn Ha).
  - intros l El Ht. unfold generateFeedback, bindings.
    rewrite Hlevel, El. unfold opt_join, call_join, join.
    cbn [nullish]. by rewrite Ht.
Qed.

(** X8: a non-empty string, a truthy number, [true], or an object whose
    length is not 0, given as weakAreas, makes [generateRecommendations]
    throw a TypeError, and so does, beside a non-empty array of weak
    areas, a strengths that is neither absent nor an array; an object
    whose own length is 0 gets the fixed sentence. *)
Theorem generateRecommendations_type_errors
    (strengths : value) (s : jstr) (n : number) (o : object)
    (x : value) (rest : list value) :
  (s ≠ [] → generateRecommendations (VStr s) strengths = Throws TypeError)
  ∧ (truthy (VNum n) = true →
     generateRecommendations (VNum n) strengths = Throws TypeError)
  ∧ generateRecommendations (VBool true) strengths = Throws TypeError
  ∧ (is_zero (get o (lit "length")) = false →
     generateRecommendations (VObj o) strengths = Throws TypeError)
  ∧ (is_zero (get o (lit "length")) = true →
     generateRecommendations (VObj o) strengths
     = Returns (lit "Continue building on current strengths"))
  ∧ (nullish strengths = false → is_array strengths = false →
     generateRecommendations (VArr (x :: rest)) strengths = Throws TypeError).
Proof.
  split; [|split; [|split; [|split; [|split]]]].
  - intros Hs. destruct s as [|c s]; [done|].
    unfold generateRecommendations.
    cbn [truthy negb orb prop_length]. rewrite bool_decide_eq_false_2 by done.
    cbn [negb orb]. by rewrite (length_cons_not_zero c s).
  - intros Ht. unfold generateRecommendations. by rewrite Ht.
  - done.
  - intros Hz. unfold generateRecommendations.
    cbn [truthy negb orb prop_length]. by rewrite Hz.
  - intros Hz. unfold generateRecommendations.
    cbn [truthy negb orb prop_length]. by rewrite Hz.
  - intros Hn Ha. unfold generateRecommendations.
    cbn [truthy negb orb prop_length]. rewrite length_cons_not_zero.
    cbn [call_slice mbind outcome_bind call_join].
    destruct (join_outcome (lit " and ") (take 2 (x :: rest))) as [[t ->]| ->];
      [|done].
    cbn [mbind outcome_bind]. by rewrite (opt_join_throws _ _ Hn Ha).
Qed.

(** X9: for a level name other than the three, [generateNextSteps]
    returns the empty list whatever the weak areas are; for
    needsImprovement and a non-empty string as weakAreas it throws a
    TypeError. *)
Theorem generateNextSteps_edges (level s : jstr) (weakAreas : value) :
  (level ∉ [excellent; good; needsImprovement] →
   generateNextSteps level weakAreas = Returns [])
  ∧ (s ≠ [] → generateNextSteps needsImprovement (VStr s) = Throws TypeError).
Proof.
  split.
  - intros Hl. unfold generateNextSteps, jstr_eqb.
    rewrite !bool_decide_eq_false_2; [done|..];
      intros ->; apply Hl; set_solver.
  - intros Hs. destruct s as [|c s]; [done|].
    unfold generateNextSteps.
    change (jstr_eqb needsImprovement excellent) with false.
    change (jstr_eqb needsImprovement good) with false.
    change (jstr_eqb needsImprovement needsImprovement) with true.
    cbn iota. unfold has_entries, gt.
    cbn [truthy prop_length ToNumber mbind outcome_bind].
    rewrite bool_decide_eq_false_2 by done. cbn [negb].
    by rewrite (length_cons_positive c s).
Qed.

(** X10: a template in which no token of the bindings occurs comes out of
    [personalizeFeedback] unchanged, provided every bound value can be
    turned into a string; if one cannot, the call throws, token or not. *)
Theorem personalizeFeedback_without_token (template : jstr) (data : object) :
  (∀ key, key ∈ keys data → ¬ has_token key template) →
  ((∀ key, key ∈ keys data → ∃ t, ToString (get data key) = Returns t) →
   personalizeFeedback template data = Returns template)
  ∧ ((∃ key, key ∈ keys data ∧ ToString (get data key) = Throws TypeError) →
     personalizeFeedback template data = Throws TypeError).
Proof.
  intros Hk. unfold personalizeFeedback.
  assert (∀ ks (acc : outcome jstr),
            (∀ key, key ∈ ks → ¬ has_token key template) →
            acc = Returns template ∨ acc = Throws TypeError →
            let res :=
              foldl (λ personalizedFeedback key,
                       s ← personalizedFeedback;
                       r ← ToString (get data key);
                       Returns (replace s (lit "{" ++ key ++ lit "}") r))
                    acc ks in
            (res = Returns template ∨ res = Throws TypeError)
            ∧ (acc = Returns template →
               (∀ key, key ∈ ks → ∃ t, ToString (get data key) = Returns t) →
               res = Returns template)
            ∧ (acc = Throws TypeError
               ∨ (∃ key, key ∈ ks
                         ∧ ToString (get data key) = Throws TypeError) →
               res = Throws TypeError)) as Hloop.
  { induction ks as [|key ks IH]; intros acc Hks Hacc res.
    - subst res. cbn [foldl]. split; [done|]. split; [done|].
      intros [?|(key & ?%elem_of_nil & _)]; done.
    - subst res. cbn [foldl].
      assert (¬ occurs (lit "{" ++ key ++ lit "}") template) as Hfree.
      { intros (a & b & E). apply (Hks key); [by left|].
        exists a, b. by rewrite E, <- !app_assoc. }
      set (acc' := acc ≫= _).
      assert (acc' = Returns template ∨ acc' = Throws TypeError) as Hacc'.
      { subst acc'. destruct Hacc as [-> | ->]; [|by right].
        cbn [mbind outcome_bind].
        destruct (ToString (get data key)) as [t|[]]; [|by right].
        left. cbn [mbind outcome_bind]. by rewrite replace_absent. }
      destruct (IH acc' (λ k Hin, Hks k (list_elem_of_further _ _ _ Hin))
                  Hacc') as (H1 & H2 & H3).
      split; [done|]. split.
      + intros -> Hall. apply H2.
        * subst acc'. cbn [mbind outcome_bind].
          destruct (Hall key) as (t & ->); [by left|].
          cbn [mbind outcome_bind]. by rewrite replace_absent.
        * intros k Hin. apply Hall. by right.
      + intros Hbad. apply H3.
        destruct Hbad as [-> |(k & [-> |Hin]%elem_of_cons & Hthrow)].
        * by left.
        * left. subst acc'. destruct Hacc as [-> | ->]; [|done].
          cbn [mbind outcome_bind]. by rewrite Hthrow.
        * right. by exists k. }
  destruct (Hloop (keys data) (Returns template) Hk (or_introl eq_refl))
    as (_ & H2 & H3).
  split; [by apply H2|]. intros Hbad. apply H3. by right.
Qed.

(** X11: on a valid record whose weakAreas and strengths are absent or
    arrays of text labels, and whose name, subject, weak areas and
    strengths are inert, the feedback is the template of the level with,
    at the place of each token, the name, the subject, the weak areas
    joined by ", " ("general concepts" when that text is empty) or the
    recommendation sentence; a pair of dollar signs in a value is read as
    one, and a value without dollar sign stands as it is. *)
Theorem feedback_text
    (now : jstr) (sd : object) (criteria : value) (ws ss : list jstr)
    (n s : jstr) :
  valid sd →
  labels (get sd (lit "weakAreas")) ws →
  labels (get sd (lit "strengths")) ss →
  (∃ style, ToString (get sd (lit "learningStyle")) = Returns style) →
  get sd (lit "name") = VStr n →
  get sd (lit "subject") = VStr s →
  inert n → inert s → Forall inert ws → Forall inert ss →
  ∃ r recs,
    generateFeedback now sd criteria = Returns r
    ∧ generateRecommendations (get sd (lit "weakAreas"))
                              (get sd (lit "strengths")) = Returns recs
    ∧ (performanceLevel r = excellent →
       feedback r
       = lit "Outstanding work! " ++ unescape n
         ++ lit " has demonstrated exceptional understanding of "
         ++ unescape s ++ lit ".")
    ∧ (performanceLevel r = good →
       feedback r
       = lit "Good progress! " ++ unescape n ++ lit " shows solid grasp of "
         ++ unescape s ++ lit " with room for improvement in "
         ++ unescape (joined_or (lit ", ") (lit "general concepts") ws)
         ++ lit ".")
    ∧ (performanceLevel r = needsImprovement →
       feedback r
       = unescape n ++ lit " needs additional support in " ++ unescape s
         ++ lit ". Consider focusing on " ++ unescape recs ++ lit ".")
    ∧ (∀ t, dollar ∉ t → unescape t = t).
Proof.
  intros Hv Hw Hs Hstyle Hn Hsub In Is Iw Iss.
  destruct (valid_conversions sd Hv) as (_ & _ & _ & _ & Hscore).
  destruct (generateFeedback_returns now sd criteria ws ss n s)
    as (level & recs & r & _ & Hin & Hrecs & Hr & Hl & Hf);
    [by rewrite Hn|by rewrite Hsub|done..|].
  pose proof (generateRecommendations_labels _ _ _ _ Hw Hs) as Hrecs'.
  pose proof (inert_areas ws Iw) as Ia.
  pose proof (inert_recommendations ws ss Iw Iss) as Ir.
  assert (inert recs) as Ir'.
  { rewrite Hrecs' in Hrecs.
    assert (∀ x y : jstr, Returns x = Returns y → x = y) as Hinj
      by (by intros x y [= ->]).
    by rewrite <- (Hinj _ _ Hrecs). }
  exists r, recs. split; [exact Hr|]. split; [exact Hrecs|].
  rewrite Hf, Hl.
  split; [|split; [|split]]; [intros ->..|apply unescape_no_dollar].
  - by apply render_excellent.
  - by apply render_good.
  - by apply render_needsImprovement.
Qed.

End EngineEdges.

(** ** The sanitizer and the route *)

Section RouteProperties.
Context `{!Conversions}.

Lemma fresh_not_allocated (h : heap) (l : loc) (s : stored) :
  h !! l = Some s → fresh (dom h) ≠ l.
Proof.
  intros Hl E.
  assert (h !! fresh (dom h) = None) as Hfresh
    by apply not_elem_of_dom, is_fresh.
  by rewrite E, Hl in Hfresh.
Qed.

Lemma copy_field_lookup (data sanitized l : loc) (k : jstr) (h : heap) :
  (l ≠ sanitized → copy_field data sanitized h k !! l = h !! l)
  ∧ (is_Some (h !! sanitized) →
     is_Some (copy_field data sanitized h k !! sanitized)).
Proof.
  unfold copy_field, write. split.
  - intros Hl. destruct (read h data k); by rewrite lookup_alter_ne.
  - intros [s Hs].
    destruct (read h data k); rewrite lookup_alter_eq, Hs; by eexists.
Qed.

Lemma copy_loop_lookup (data sanitized l : loc) (ks : list jstr) (h : heap) :
  (l ≠ sanitized → foldl (copy_field data sanitized) h ks !! l = h !! l)
  ∧ (is_Some (h !! sanitized) →
     is_Some (foldl (copy_field data sanitized) h ks !! sanitized)).
Proof.
  revert h. induction ks as [|k ks IH]; intros h; [done|].
  cbn [foldl]. destruct (IH (copy_field data sanitized h k)) as [IH1 IH2].
  destruct (copy_field_lookup data sanitized l k h) as [H1 H2].
  split.
  - intros Hl. by rewrite IH1, H1.
  - intros Hs. by apply IH2, H2.
Qed.

(** X12: whatever the record holds, the key [__proto__] included,
    [sanitizeInput] returns a newly allocated object and leaves every
    object that the store held, the argument among them, as it was. *)
Theorem sanitizeInput_frame (h : heap) (data : loc) (s : stored) :
  h !! data = Some s →
  ∃ h' sanitized,
    sanitizeInput h data = Returns (h', sanitized)
    ∧ h !! sanitized = None
    ∧ is_Some (h' !! sanitized)
    ∧ h' !! data = Some s
    ∧ ∀ l s', h !! l = Some s' → h' !! l = Some s'.
Proof.
  intros Hd. unfold sanitizeInput. rewrite Hd. eexists _, _.
  split; [done|].
  assert (h !! fresh (dom h) = None) as Hfresh
    by apply not_elem_of_dom, is_fresh.
  split; [done|]. split.
  { apply copy_loop_lookup; [exact data|]. by rewrite lookup_insert_eq. }
  assert (∀ l s', h !! l = Some s' →
                  foldl (copy_field data (fresh (dom h)))
                        (<[fresh (dom h) := plain []]> h) (keys (own s)) !! l
                  = Some s') as Hframe.
  { intros l s' Hl.
    pose proof (fresh_not_allocated h l s' Hl) as Hne.
    destruct (copy_loop_lookup data (fresh (dom h)) l (keys (own s))
                (<[fresh (dom h) := plain []]> h)) as [Hf _].
    rewrite Hf by done. by rewrite lookup_insert_ne. }
  split; [by apply Hframe|done].
Qed.

(** X13: on a record of the store whose keys are distinct and that does
    not own the key [__proto__], [sanitizeInput] allocates a new object and
    fills it with the fields of its argument, in their order: a string
    field trimmed and then freed of every [<] and [>], any other field as
    it is. *)
Theorem sanitizeInput_copy (h : heap) (data : loc) (s : stored) :
  h !! data = Some s → NoDup (keys (own s)) → proto_key ∉ keys (own s) →
  ∃ h' sanitized,
    sanitizeInput h data = Returns (h', sanitized)
    ∧ h !! sanitized = None
    ∧ h' !! sanitized = Some (plain (sanitized_copy (own s)))
    ∧ keys (sanitized_copy (own s)) = keys (own s)
    ∧ (∀ k t, get (own s) k = VStr t →
              get (sanitized_copy (own s)) k = VStr (strip_angle (trim t)))
    ∧ (∀ k, is_string (get (own s) k) = false →
            get (sanitized_copy (own s)) k = get (own s) k).
Proof.
  intros Hd Hnd Hp.
  destruct (sanitizeInput_plain h data s Hd Hnd Hp) as (Hr & Hfresh & Hne).
  eexists _, _. split; [exact Hr|].
  split; [done|]. split; [by rewrite lookup_insert_eq|].
  split; [apply keys_sanitized_copy|].
  split; [intros k t E; by rewrite get_sanitized_copy, E|].
  intros k E. rewrite get_sanitized_copy. by destruct (get (own s) k).
Qed.

Lemma strip_angle_sublist (s : jstr) : strip_angle s `sublist_of` s.
Proof. rewrite strip_angle_filter. apply sublist_filter. Qed.

Lemma trim_sublist (s : jstr) : trim s `sublist_of` s.
Proof.
  destruct (trim_split s) as (a & b & E & _).
  rewrite E at 2. by apply sublist_inserts_l, sublist_inserts_r.
Qed.

(** X14: on such a record, every string field of the copy holds neither
    [<] nor [>], neither starts nor ends with white space, and is what
    remains of the original string once some of its characters are
    deleted, the others keeping their order. *)
Theorem sanitizeInput_strings (h : heap) (data : loc) (s : stored) :
  h !! data = Some s → NoDup (keys (own s)) → proto_key ∉ keys (own s) →
  ∃ h' sanitized,
    sanitizeInput h data = Returns (h', sanitized)
    ∧ ∀ k t, get (own s) k = VStr t →
             ∃ t', read h' sanitized k = VStr t'
                   ∧ (lt_sign ∉ t') ∧ (gt_sign ∉ t')
                   ∧ t' `sublist_of` t
                   ∧ t' = strip_angle (trim t)
                   ∧ (∀ c, head (trim t) = Some c → is_space c = false)
                   ∧ (∀ c, last (trim t) = Some c → is_space c = false).
Proof.
  intros Hd Hnd Hp.
  destruct (sanitizeInput_plain h data s Hd Hnd Hp) as (Hr & _).
  eexists _, _. split; [exact Hr|].
  intros k t Hk. exists (strip_angle (trim t)).
  destruct (trim_split t) as (a & b & _ & _ & _ & Hhead & Hlast).
  split; [|split; [|split; [|split; [|split; [|split]]]]]; try done.
  - unfold read. rewrite lookup_insert_eq. cbn [plain own].
    by rewrite get_sanitized_copy, Hk.
  - rewrite strip_angle_filter, list_elem_of_filter. by intros [[? _] _].
  - rewrite strip_angle_filter, list_elem_of_filter. by intros [[_ ?] _].
  - etrans; [apply strip_angle_sublist | apply trim_sublist].
Qed.



(** the two sanitized copies the route hands to the engine *)
Lemma route_copies (h : heap) (l c : loc) (o cr : object) :
  h !! l = Some (plain o) → h !! c = Some (plain cr) →
  NoDup (keys o) → NoDup (keys cr) →
  proto_key ∉ keys o → proto_key ∉ keys cr →
  ∃ h' s1 s2,
    sanitizeInput h l = Returns (<[s1 := plain (sanitized_copy o)]> h, s1)
    ∧ sanitizeInput (<[s1 := plain (sanitized_copy o)]> h) c
      = Returns (h', s2)
    ∧ h' !! s1 = Some (plain (sanitized_copy o))
    ∧ h' !! s2 = Some (plain (sanitized_copy cr)).
Proof.
  intros Hl Hc Ho Hcr Hpo Hpc.
  pose proof (fresh_not_allocated h c _ Hc) as Hne.
  assert (<[fresh (dom h) := plain (sanitized_copy o)]> h !! c
          = Some (plain cr)) as Hc'
    by (by rewrite lookup_insert_ne).
  destruct (sanitizeInput_plain h l (plain o) Hl Ho Hpo) as (E1 & _).
  destruct (sanitizeInput_plain _ c (plain cr) Hc' Hcr Hpc) as (E2 & _).
  eexists _, _, _.
  split; [exact E1|]. split; [exact E2|].
  split; [|by rewrite lookup_insert_eq].
  rewrite lookup_insert_ne; [by rewrite lookup_insert_eq|].
  apply (fresh_not_allocated _ _ (plain (sanitized_copy o))).
  by rewrite lookup_insert_eq.
Qed.

Lemma fields_plain (o : object) : fields (plain o) = o.
Proof. unfold fields, plain. cbn [own prototype]. apply app_nil_r. Qed.

(** X16: the response of the route on objects that [JSON.parse] built
    without the key [__proto__].  Without studentData it is 500.  With a
    student object and a criteria object it is 400 with the student errors
    when the student data are invalid, whatever the criteria are; else 400
    with the criteria errors when the criteria are invalid; else the
    engine runs on the sanitized copies of both, and the response is 200
    with its result; it is 500 whenever a validator or the engine throws. *)
Theorem post_generate_feedback_response
    (now : jstr) (h : heap) (l c : loc) (o cr : object) :
  h !! l = Some (plain o) → h !! c = Some (plain cr) →
  NoDup (keys o) → NoDup (keys cr) →
  proto_key ∉ keys o → proto_key ∉ keys cr →
  (post_generate_feedback now h None (Some c)).2
  = {| status := 500; body := InternalError |}
  ∧ (post_generate_feedback now h (Some l) (Some c)).2
    = match validateStudentData o with
      | Throws _ => {| status := 500; body := InternalError |}
      | Returns studentValidation =>
          if negb (isValid studentValidation)
          then {| status := 400;
                  body := ValidationFailed (errors studentValidation) |}
          else
            match validateCriteria (VObj cr) with
            | Throws _ => {| status := 500; body := InternalError |}
            | Returns criteriaValidation =>
                if negb (isValid criteriaValidation)
                then {| status := 400;
                        body := ValidationFailed
                                  (errors criteriaValidation) |}
                else
                  match generateFeedback now (sanitized_copy o)
                                         (VObj (sanitized_copy cr)) with
                  | Returns feedback =>
                      {| status := 200; body := Feedback feedback |}
                  | Throws _ => {| status := 500; body := InternalError |}
                  end
            end
      end.
Proof.
  intros Hl Hc Ho Hcr Hpo Hpc. split; [done|].
  unfold post_generate_feedback. rewrite Hl, Hc.
  unfold attempt. rewrite !fields_plain.
  destruct (validateStudentData o) as [sv|]; [|done].
  destruct (negb (isValid sv)); [done|].
  destruct (validateCriteria (VObj cr)) as [cv|]; [|done].
  destruct (negb (isValid cv)); [done|].
  destruct (route_copies h l c o cr Hl Hc Ho Hcr Hpo Hpc)
    as (h' & s1 & s2 & -> & -> & -> & ->).
  rewrite !fields_plain.
  by destruct (generateFeedback _ _ _).
Qed.

(** X17: when the request carries no criteria the route uses a new empty
    object, which is valid: the response is 400 with the student errors
    when the student data are invalid, and else what the engine gives on
    the sanitized copy, 200 with its result or 500 when it throws. *)
Theorem post_generate_feedback_default_criteria
    (now : jstr) (h : heap) (l : loc) (o : object) :
  h !! l = Some (plain o) → NoDup (keys o) → proto_key ∉ keys o →
  (post_generate_feedback now h (Some l) None).2
  = match validateStudentData o with
    | Throws _ => {| status := 500; body := InternalError |}
    | Returns studentValidation =>
        if negb (isValid studentValidation)
        then {| status := 400;
                body := ValidationFailed (errors studentValidation) |}
        else
          match generateFeedback now (sanitized_copy o) (VObj []) with
          | Returns feedback => {| status := 200; body := Feedback feedback |}
          | Throws _ => {| status := 500; body := InternalError |}
          end
    end.
Proof.
  intros Hl Ho Hpo.
  pose proof (fresh_not_allocated h l _ Hl) as Hne.
  assert (<[fresh (dom h) := plain []]> h !! l = Some (plain o)) as Hl'
    by (by rewrite lookup_insert_ne).
  assert (<[fresh (dom h) := plain []]> h !! fresh (dom h) = Some (plain []))
    as Hc by (by rewrite lookup_insert_eq).
  unfold post_generate_feedback. rewrite Hl', Hc.
  unfold attempt. rewrite !fields_plain.
  destruct (validateStudentData o) as [sv|]; [|done].
  destruct (negb (isValid sv)); [done|].
  change (validateCriteria (VObj []))
    with (Returns {| isValid := true; errors := [] |}).
  cbn [isValid negb].
  destruct (route_copies _ l (fresh (dom h)) o [] Hl' Hc Ho (NoDup_nil_2))
    as (h' & s1 & s2 & -> & -> & -> & ->); [done|apply not_elem_of_nil|].
  rewrite !fields_plain.
  by destruct (generateFeedback _ _ _).
Qed.

(** X18: the route never changes an object that the store already holds:
    whatever the request and the response, each object of the store is
    the same after the call. *)
Theorem post_generate_feedback_frame
    (now : jstr) (h : heap) (studentData criteria : option loc)
    (l : loc) (s : stored) :
  h !! l = Some s →
  (post_generate_feedback now h studentData criteria).1 !! l = Some s.
Proof.
  intros Hl. unfold post_generate_feedback.
  assert (∃ h0 c, (match criteria with
                   | Some c => (h, c)
                   | None => (<[fresh (dom h) := plain []]> h, fresh (dom h))
                   end) = (h0, c) ∧ h0 !! l = Some s) as (h0 & c & -> & Hl0).
  { destruct criteria as [c|]; eexists _, _; (split; [done|]); [done|].
    rewrite lookup_insert_ne; [done|]. by eapply fresh_not_allocated. }
  destruct studentData as [sd|]; [|done].
  destruct (h0 !! sd) as [s1|] eqn:Esd, (h0 !! c) as [s2|] eqn:Ec; try done.
  unfold attempt.
  destruct (validateStudentData _) as [sv|]; [|done].
  destruct (negb (isValid sv)); [done|].
  destruct (validateCriteria _) as [cv|]; [|done].
  destruct (negb (isValid cv)); [done|].
  destruct (sanitizeInput_frame h0 sd s1 Esd)
    as (h1 & l1 & -> & _ & _ & _ & F1).
  destruct (sanitizeInput_frame h1 c s2 (F1 _ _ Ec))
    as (h2 & l2 & -> & _ & _ & _ & F2).
  pose proof (F2 _ _ (F1 _ _ Hl0)) as Hl2.
  destruct (h2 !! l1), (h2 !! l2); try done.
  by destruct (generateFeedback _ _ _).
Qed.

End RouteProperties.

(** * The theorems at concrete records *)

#[local] Existing Instance no_conversions.

(** a literal is inert *)
Ltac inert_lit := apply inert_avoids, avoids_silent; vm_compute; reflexivity.

Ltac distinct_keys := apply (bool_decide_unpack _); vm_compute; exact I.

(** the end-to-end examples of the test suite *)
Example feedback_john_doe :
  ∃ r, generateFeedback (lit "2024-01-01T00:00:00.000Z") john_doe rubric_criteria
       = Returns r
       ∧ studentName r = text "John Doe"
       ∧ subject r = text "Mathematics"
       ∧ performanceLevel r = lit "excellent"
       ∧ feedback r = lit "Outstanding work! John Doe has demonstrated exceptional understanding of Mathematics.".
Proof. eexists. split; [reflexivity|]. by repeat split. Qed.

Example feedback_jane_smith :
  ∃ r, generateFeedback (lit "2024-01-01T00:00:00.000Z") jane_smith (VObj [])
       = Returns r
       ∧ performanceLevel r = lit "good"
       ∧ feedback r = lit "Good progress! Jane Smith shows solid grasp of Science with room for improvement in Lab procedures."
       ∧ recommendations r
         = [ lit "Target improvement areas: Lab procedures";
             lit "Build upon strengths: Theory understanding" ].
Proof. eexists. split; [reflexivity|]. by repeat split. Qed.

Example feedback_bob_johnson :
  ∃ r, generateFeedback (lit "2024-01-01T00:00:00.000Z") bob_johnson (VObj [])
       = Returns r
       ∧ performanceLevel r = lit "needsImprovement"
       ∧ feedback r = lit "Bob Johnson needs additional support in English. Consider focusing on Focus on Grammar and Vocabulary while leveraging strengths in Creative writing."
       ∧ nextSteps r
         = [ lit "Schedule additional support sessions";
             lit "Review fundamental concepts";
             lit "Focus specifically on: Grammar and Vocabulary" ].
Proof. eexists. split; [reflexivity|]. by repeat split. Qed.

Example sanitize_bob :
  strip_angle (trim (lit " <b>Bob</b> ")) = lit "bBob/b".
Proof. reflexivity. Qed.

(** an entry that owns a member [toString] which is not a function cannot
    be joined: the engine fails on a record the validator accepts *)
Example feedback_unprintable_area :
  valid unprintable_area
  ∧ generateFeedback (lit "2024-01-01") unprintable_area (VObj [])
    = Throws TypeError.
Proof. split; [eexists; split; reflexivity|reflexivity]. Qed.

(** C1 at the score 85 *)
Lemma assessPerformance_tiers_witness :
  (0 <= 85)%Q ∧ (85 <= 100)%Q
  ∧ assessPerformance (VNum (Fin 85)) = Returns excellent.
Proof.
  assert (0 <= 85)%Q as H0 by done.
  assert (85 <= 100)%Q as H1 by done.
  split; [exact H0|]. split; [exact H1|].
  destruct (assessPerformance_tiers 85 H0 H1) as (_ & He & _).
  apply He. done.
Defined.

(** C10 at the score -5 *)
Lemma assessPerformance_total_witness :
  (-5 < 70)%Q
  ∧ assessPerformance (VNum (Fin (-5))) = Returns needsImprovement.
Proof.
  assert (-5 < 70)%Q as H0 by done.
  split; [exact H0|].
  destruct (assessPerformance_total (Fin (-5))) as (_ & _ & _ & Hlow).
  apply Hlow. exact H0.
Defined.

(** C3 at the first record of the test suite, with and without a rubric *)
Lemma generateFeedback_ignores_criteria_witness :
  labels (get john_doe (lit "weakAreas")) []
  ∧ labels (get john_doe (lit "strengths"))
           [lit "Problem solving"; lit "Analytical thinking"]
  ∧ ∃ r1 r2,
      generateFeedback (lit "2024-01-01") john_doe rubric_criteria = Returns r1
      ∧ generateFeedback (lit "2024-01-02") john_doe (VObj []) = Returns r2
      ∧ performanceLevel r1 = performanceLevel r2.
Proof.
  assert (labels (get john_doe (lit "weakAreas")) []) as Hw
    by (right; reflexivity).
  assert (labels (get john_doe (lit "strengths"))
                 [lit "Problem solving"; lit "Analytical thinking"]) as Hs
    by (right; reflexivity).
  split; [exact Hw|]. split; [exact Hs|].
  destruct (generateFeedback_ignores_criteria
              (lit "2024-01-01") (lit "2024-01-02") john_doe
              rubric_criteria (VObj [])) as (_ & _ & Hret & _).
  apply (Hret [] [lit "Problem solving"; lit "Analytical thinking"]).
  - eexists. reflexivity.
  - eexists. reflexivity.
  - eexists. reflexivity.
  - exact Hw.
  - exact Hs.
  - eexists. reflexivity.
Defined.

(** C2, as amended, at a record whose name and subject hold braces and a
    dollar sign *)
Lemma feedback_has_no_placeholder_witness :
  valid odd_name
  ∧ inert (lit "A{B $5")
  ∧ inert (lit "Sets {a, b}")
  ∧ ∃ r, generateFeedback (lit "2024-01-01") odd_name (VObj []) = Returns r
         ∧ ∀ key, key ∈ placeholders → ¬ has_token key (feedback r).
Proof.
  assert (valid odd_name) as Hv by (eexists; split; reflexivity).
  assert (inert (lit "A{B $5")) as Hn by inert_lit.
  assert (inert (lit "Sets {a, b}")) as Hs by inert_lit.
  split; [exact Hv|]. split; [exact Hn|]. split; [exact Hs|].
  apply (feedback_has_no_placeholder _ odd_name _
           [lit "Unions"; lit "Powers"; lit "Pairs"] [lit "Proofs"]
           (lit "A{B $5") (lit "Sets {a, b}")).
  - exact Hv.
  - right. reflexivity.
  - right. reflexivity.
  - eexists. reflexivity.
  - reflexivity.
  - reflexivity.
  - exact Hn.
  - exact Hs.
  - repeat (apply Forall_cons_2; [inert_lit|]). apply Forall_nil_2.
  - repeat (apply Forall_cons_2; [inert_lit|]). apply Forall_nil_2.
Defined.

(** C2 as stated fails: [braces_name] is valid and is its own sanitized
    copy, and its feedback still holds the token of the topic; so does the
    feedback of [quote_name], whose name is the pattern that stands for
    the text after the match. *)
Lemma unresolved_placeholder :
  (valid braces_name
   ∧ sanitized_copy braces_name = braces_name
   ∧ ∃ r, generateFeedback (lit "2024-01-01") braces_name (VObj []) = Returns r
          ∧ feedback r = lit "Outstanding work! Algebra has demonstrated exceptional understanding of {topic}."
          ∧ has_token (lit "topic") (feedback r))
  ∧ (valid quote_name
     ∧ sanitized_copy quote_name = quote_name
     ∧ ∃ r, generateFeedback (lit "2024-01-01") quote_name (VObj []) = Returns r
            ∧ feedback r = lit "Outstanding work!  has demonstrated exceptional understanding of Algebra. has demonstrated exceptional understanding of {topic}."
            ∧ has_token (lit "topic") (feedback r)).
Proof.
  split.
  - split; [eexists; split; reflexivity|]. split; [reflexivity|].
    eexists. split; [reflexivity|]. split; [reflexivity|].
    exists (lit "Outstanding work! Algebra has demonstrated exceptional understanding of "),
           (lit ".").
    reflexivity.
  - split; [eexists; split; reflexivity|]. split; [reflexivity|].
    eexists. split; [reflexivity|]. split; [reflexivity|].
    exists (lit "Outstanding work!  has demonstrated exceptional understanding of Algebra. has demonstrated exceptional understanding of "),
           (lit ".").
    reflexivity.
Qed.

(** C5, as amended, at the weak areas and strengths of the third record
    of the test suite *)
Lemma generateRecommendations_cases_witness :
  first_two_joined [text "Grammar"; text "Vocabulary"]
                   (lit "Grammar" ++ lit " and " ++ lit "Vocabulary")
  ∧ generateRecommendations (VArr [text "Grammar"; text "Vocabulary"])
                            (VArr [text "Creative writing"])
    = Returns (lit "Focus on Grammar and Vocabulary while leveraging strengths in Creative writing").
Proof.
  assert (first_two_joined [text "Grammar"; text "Vocabulary"]
                           (lit "Grammar" ++ lit " and " ++ lit "Vocabulary"))
    as Hf by apply first_pair.
  split; [exact Hf|].
  destruct (generateRecommendations_cases VUndefined _ _
              [lit "Creative writing"] Hf) as (_ & _ & _ & E & _).
  etrans; [exact E|]. reflexivity.
Defined.

(** C5 as stated fails: with one weak area and, for strengths, an array
    holding the empty text, which is not an empty array, the sentence ends
    in "identified areas" and not in the joined strengths. *)
Lemma recommendations_fallback_on_empty_text :
  generateRecommendations (VArr [text "Grammar"]) (VArr [VStr []])
  = Returns (lit "Focus on Grammar while leveraging strengths in identified areas")
  ∧ recommendations_as_specified [lit "Grammar"] [[]]
    = lit "Focus on Grammar while leveraging strengths in "
  ∧ generateRecommendations (VArr [text "Grammar"]) (VArr [VStr []])
    ≠ Returns (recommendations_as_specified [lit "Grammar"] [[]]).
Proof.
  split; [reflexivity|]. split; [reflexivity|].
  intros E. vm_compute in E. discriminate E.
Qed.

(** C6, as amended, at the second record of the test suite *)
Lemma areas_binding_witness :
  labels (get jane_smith (lit "weakAreas")) [lit "Lab procedures"]
  ∧ labels (get jane_smith (lit "strengths")) [lit "Theory understanding"]
  ∧ ∃ data, bindings jane_smith = Returns data
            ∧ get data (lit "areas") = text "Lab procedures".
Proof.
  assert (labels (get jane_smith (lit "weakAreas")) [lit "Lab procedures"])
    as Hw by (right; reflexivity).
  assert (labels (get jane_smith (lit "strengths"))
                 [lit "Theory understanding"]) as Hs by (right; reflexivity).
  split; [exact Hw|]. split; [exact Hs|].
  destruct (areas_binding jane_smith _ _ Hw Hs) as ((data & Hb & Ha & _) & _).
  exists data. split; [exact Hb|]. rewrite Ha. reflexivity.
Defined.

(** C6 as stated fails: [empty_labels] is valid and is its own sanitized
    copy, its weak areas are not empty, and the areas slot holds the
    fallback and not the joined weak areas. *)
Lemma areas_fallback_on_empty_text :
  valid empty_labels
  ∧ sanitized_copy empty_labels = empty_labels
  ∧ get empty_labels (lit "weakAreas") = VArr [VStr []]
  ∧ ∃ data, bindings empty_labels = Returns data
            ∧ get data (lit "areas") = text "general concepts"
            ∧ get data (lit "areas") ≠ VStr (areas_as_specified [[]]).
Proof.
  split; [eexists; split; reflexivity|].
  split; [reflexivity|]. split; [reflexivity|].
  eexists. split; [reflexivity|]. split; [reflexivity|].
  intros E. vm_compute in E. discriminate E.
Qed.

(** C7 at one, two and three weak areas *)
Lemma generateNextSteps_cases_witness :
  first_two_joined [text "Grammar"; text "Vocabulary"; text "Spelling"]
                   (lit "Grammar" ++ lit " and " ++ lit "Vocabulary")
  ∧ generateNextSteps needsImprovement
      (VArr [text "Grammar"; text "Vocabulary"; text "Spelling"])
    = Returns [lit "Schedule additional support sessions";
               lit "Review fundamental concepts";
               lit "Focus specifically on: Grammar and Vocabulary"].
Proof.
  assert (first_two_joined
            [text "Grammar"; text "Vocabulary"; text "Spelling"]
            (lit "Grammar" ++ lit " and " ++ lit "Vocabulary")) as Hf
    by apply first_pair.
  split; [exact Hf|].
  destruct (generateNextSteps_cases VUndefined _ _ Hf)
    as (_ & _ & _ & _ & _ & E).
  etrans; [exact E|]. reflexivity.
Defined.

(** C8, as amended, at a record that only has a learning style *)
Lemma validateStudentData_missing_required_witness :
  get only_style (lit "name") = VUndefined
  ∧ get only_style (lit "performance") = VUndefined
  ∧ get only_style (lit "subject") = VUndefined
  ∧ ∃ v, validateStudentData only_style = Returns v
         ∧ isValid v = false
         ∧ errors v
           = [lit "name is required"; lit "performance is required";
              lit "subject is required"].
Proof.
  do 3 (split; [reflexivity|]).
  destruct (validateStudentData_missing_required only_style)
    as (v & Hv & Hi & _ & He); [reflexivity..|].
  exists v. split; [exact Hv|]. split; [exact Hi|]. apply He; reflexivity.
Defined.

(** C8 as stated fails: [only_bad_areas] lacks the three required fields
    and its error list has four entries. *)
Lemma four_errors :
  get only_bad_areas (lit "name") = VUndefined
  ∧ get only_bad_areas (lit "performance") = VUndefined
  ∧ get only_bad_areas (lit "subject") = VUndefined
  ∧ ∃ v, validateStudentData only_bad_areas = Returns v
         ∧ errors v
           = [lit "name is required"; lit "performance is required";
              lit "subject is required"; lit "Weak areas must be an array"]
         ∧ length (errors v) ≠ 3.
Proof.
  do 3 (split; [reflexivity|]). eexists. split; [reflexivity|].
  split; [reflexivity|]. vm_compute. lia.
Qed.

(** * The further properties at concrete records *)

(** X1 at a record with a text for weakAreas *)
Lemma validateStudentData_reports_witness :
  ∃ v, validateStudentData only_bad_areas = Returns v
       ∧ lit "Weak areas must be an array" ∈ errors v.
Proof.
  eexists. split; [reflexivity|].
  apply (validateStudentData_reports only_bad_areas); [reflexivity|].
  do 6 right. left. by repeat split.
Defined.

(** X2 at the first record of the test suite *)
Lemma validateStudentData_valid_iff_witness : valid john_doe.
Proof.
  apply (validateStudentData_valid_iff john_doe).
  split; [by exists (lit "John Doe")|].
  split; [by exists (lit "Mathematics")|].
  split; [reflexivity|].
  split; [exists (Fin 90); split; [reflexivity|]; by exists 90%Q|].
  split; by right.
Defined.

(** X3 at the second record of the test suite, with and without a
    learning style *)
Lemma validateStudentData_reads_five_fields_witness :
  validateStudentData jane_smith = validateStudentData jane_smith_visual.
Proof.
  apply validateStudentData_reads_five_fields.
  intros k Hk.
  repeat (apply elem_of_cons in Hk as [->|Hk]); try reflexivity.
  by apply elem_of_nil in Hk.
Defined.

(** X4 at the criteria [null] *)
Lemma validateCriteria_reports_witness :
  validateCriteria VNull
  = Returns {| isValid := false;
               errors := [lit "Criteria must be an object"] |}.
Proof.
  destruct (validateCriteria_reports
              VNull {| isValid := false; errors := [] |} []) as [Hno _].
  apply Hno; [reflexivity|]. intros o. discriminate.
Defined.

(** X5 at the criteria of the first test *)
Lemma validateCriteria_valid_iff_witness :
  ∃ v, validateCriteria rubric_criteria = Returns v ∧ isValid v = true.
Proof.
  apply (validateCriteria_valid_iff rubric_criteria).
  right. eexists. split; [reflexivity|]. split; [by right|by left].
Defined.

(** X6 at the second record of the test suite with a learning style *)
Lemma generateDetailedRecommendations_lines_witness :
  generateDetailedRecommendations jane_smith_visual
  = Returns [ lit "Target improvement areas: Lab procedures";
              lit "Build upon strengths: Theory understanding";
              lit "Adapt teaching methods for visual learning style" ].
Proof.
  destruct (generateDetailedRecommendations_lines jane_smith_visual
              [lit "Lab procedures"] [lit "Theory understanding"]
              (lit "visual")) as (lines & E & -> & _);
    [by right|by right|reflexivity|].
  etrans; [exact E|]. reflexivity.
Defined.

(** X7 at a valid record whose weakAreas is [false] *)
Lemma generateFeedback_type_errors_witness :
  valid false_areas
  ∧ generateFeedback (lit "2024-01-01") false_areas (VObj []) = Throws TypeError.
Proof.
  assert (valid false_areas) as Hv by (eexists; split; reflexivity).
  split; [exact Hv|].
  destruct (generateFeedback_type_errors (lit "2024-01-01") false_areas
              (VObj []) Hv) as [Hfalsy _].
  by apply Hfalsy.
Defined.

(** X8 at the weak areas given as one string *)
Lemma generateRecommendations_type_errors_witness :
  generateRecommendations (text "Grammar") VUndefined = Throws TypeError.
Proof.
  destruct (generateRecommendations_type_errors VUndefined (lit "Grammar")
              NaN [] VNull []) as [Hs _].
  apply Hs. discriminate.
Defined.

(** X9 at a level name that is none of the three *)
Lemma generateNextSteps_edges_witness :
  generateNextSteps (lit "average") (VArr [text "Grammar"]) = Returns [].
Proof.
  destruct (generateNextSteps_edges (lit "average") [] (VArr [text "Grammar"]))
    as [Hother _].
  apply Hother. absent.
Defined.

(** X10 at a template without tokens *)
Lemma personalizeFeedback_without_token_witness :
  personalizeFeedback (lit "Well done, {name}.")
                      [ field "student" (text "Ann") ]
  = Returns (lit "Well done, {name}.").
Proof.
  destruct (personalizeFeedback_without_token (lit "Well done, {name}.")
              [ field "student" (text "Ann") ]) as [Hsame _].
  - intros key [-> |Hk%elem_of_nil]%elem_of_cons; [|done].
    intros Ht%has_token_occurs. revert Ht. apply split_first_None.
    reflexivity.
  - apply Hsame.
    intros key [-> |Hk%elem_of_nil]%elem_of_cons; [|done].
    eexists. reflexivity.
Defined.

(** X11 at the third record of the test suite *)
Lemma feedback_text_witness :
  ∃ r, generateFeedback (lit "2024-01-01") bob_johnson (VObj []) = Returns r
       ∧ performanceLevel r = needsImprovement
       ∧ feedback r = lit "Bob Johnson needs additional support in English. Consider focusing on Focus on Grammar and Vocabulary while leveraging strengths in Creative writing.".
Proof.
  destruct (feedback_text (lit "2024-01-01") bob_johnson (VObj [])
              [lit "Grammar"; lit "Vocabulary"] [lit "Creative writing"]
              (lit "Bob Johnson") (lit "English"))
    as (r & recs & Hr & Hrecs & _ & _ & Hneeds & _).
  - eexists. split; reflexivity.
  - right. reflexivity.
  - right. reflexivity.
  - eexists. reflexivity.
  - reflexivity.
  - reflexivity.
  - inert_lit.
  - inert_lit.
  - repeat (apply Forall_cons_2; [inert_lit|]). apply Forall_nil_2.
  - repeat (apply Forall_cons_2; [inert_lit|]). apply Forall_nil_2.
  - exists r. split; [exact Hr|].
    assert (performanceLevel r = needsImprovement) as Hl.
    { assert (Some (performanceLevel r) = Some needsImprovement) as [= E];
        [|exact E].
      change (Some needsImprovement)
        with (match generateFeedback (lit "2024-01-01") bob_johnson (VObj [])
              with Returns x => Some (performanceLevel x) | Throws _ => None
              end).
      by rewrite Hr. }
    split; [exact Hl|]. rewrite (Hneeds Hl).
    assert (Returns recs
            = Returns (lit "Focus on Grammar and Vocabulary while leveraging strengths in Creative writing"))
      as [= ->] by (rewrite <- Hrecs; reflexivity).
    reflexivity.
Defined.

(** X12 at a record that owns the key [__proto__] *)
Lemma sanitizeInput_frame_witness :
  ∃ h' sanitized,
    sanitizeInput store_proto 1%positive = Returns (h', sanitized)
    ∧ h' !! 1%positive = Some (plain proto_object).
Proof.
  destruct (sanitizeInput_frame store_proto 1%positive (plain proto_object))
    as (h' & l & Hr & _ & _ & Hsame & _); [reflexivity|].
  by exists h', l.
Defined.

(** X13 at a store that holds one record *)
Lemma sanitizeInput_copy_witness :
  store_bob !! 1%positive = Some (plain bob_markup)
  ∧ NoDup (keys bob_markup)
  ∧ ∃ h' sanitized,
      sanitizeInput store_bob 1%positive = Returns (h', sanitized)
      ∧ h' !! sanitized
        = Some (plain [ field "name" (text "bBob/b");
                        field "performance" (VNum (Fin 60));
                        field "weakAreas" (VArr [text " <i>Grammar</i> "]) ]).
Proof.
  assert (store_bob !! 1%positive = Some (plain bob_markup)) as Hd
    by reflexivity.
  assert (NoDup (keys bob_markup)) as Hnd by distinct_keys.
  assert (proto_key ∉ keys bob_markup) as Hp by absent.
  split; [exact Hd|]. split; [exact Hnd|].
  destruct (sanitizeInput_copy store_bob 1%positive (plain bob_markup)
              Hd Hnd Hp) as (h' & l & Hr & _ & Hc & _).
  exists h', l. split; [exact Hr|]. rewrite Hc. reflexivity.
Defined.

(** X14 at the same store *)
Lemma sanitizeInput_strings_witness :
  ∃ h' sanitized t',
    sanitizeInput store_bob 1%positive = Returns (h', sanitized)
    ∧ read h' sanitized (lit "name") = VStr t'
    ∧ (lt_sign ∉ t') ∧ (gt_sign ∉ t')
    ∧ t' `sublist_of` lit " <b>Bob</b> ".
Proof.
  destruct (sanitizeInput_strings store_bob 1%positive (plain bob_markup))
    as (h' & l & Hr & Hs); [reflexivity | distinct_keys | absent |].
  destruct (Hs (lit "name") (lit " <b>Bob</b> "))
    as (t' & ? & ? & ? & ? & _); [reflexivity|].
  by exists h', l, t'.
Defined.


(** X16 at a store that holds the second record of the test suite and
    criteria with a weight *)
Lemma post_generate_feedback_response_witness :
  status (post_generate_feedback (lit "2024-01-01") store_jane
            (Some 1%positive) (Some 2%positive)).2 = 200.
Proof.
  destruct (post_generate_feedback_response (lit "2024-01-01") store_jane
              1%positive 2%positive jane_smith full_weight) as [_ E];
    [reflexivity | reflexivity | distinct_keys | distinct_keys
    | absent | absent |].
  etrans; [exact (f_equal status E) | reflexivity].
Defined.

(** X17 at a store that holds a record with a score of 0 *)
Lemma post_generate_feedback_default_criteria_witness :
  (post_generate_feedback (lit "2024-01-01") store_zero (Some 1%positive) None).2
  = {| status := 400;
       body := ValidationFailed [lit "performance is required"] |}.
Proof.
  etrans; [apply (post_generate_feedback_default_criteria (lit "2024-01-01")
                    store_zero 1%positive zero_score);
             [reflexivity | distinct_keys | absent]
          | reflexivity].
Defined.

(** X18 at a store that holds one record *)
Lemma post_generate_feedback_frame_witness :
  (post_generate_feedback (lit "2024-01-01") store_bob (Some 1%positive) None).1
    !! 1%positive = Some (plain bob_markup).
Proof. apply post_generate_feedback_frame. reflexivity. Defined.

(** X19: the route on a valid record that owns an object under the key
    [__proto__]: the response is 200, and the learning style of that
    object reaches the recommendations with its angle brackets. *)
Theorem post_generate_feedback_unsanitized :
  valid proto_object
  ∧ ∃ r, (post_generate_feedback (lit "2024-01-01") store_proto
            (Some 1%positive) None).2
         = {| status := 200; body := Feedback r |}
         ∧ recommendations r
           = [lit "Adapt teaching methods for <script> learning style"].
Proof.
  split; [eexists; split; reflexivity|].
  eexists. split; vm_compute; reflexivity.
Qed.

